(** * weldx documentation configuration ([doc/conf.py])

    A shallow embedding of the executable glue of the Sphinx configuration
    file: tutorial staging ([_copy_tut_files]), the intersphinx mapping
    ([_get_intersphinx_mapping]) and the parsing of the [nitpick_ignore]
    file, with the Python primitives they call. *)

From Stdlib Require Import String Ascii.
From stdpp Require Import base numbers list option gmap.

Local Open Scope N_scope.

(** ** Python strings *)

(** A Python [str] is a sequence of Unicode code points. *)
Definition char := N.
Definition str := list char.

(** Literals of the source are written [py "..."] (ASCII only). *)
Definition py (s : string) : str := map N_of_ascii (list_ascii_of_string s).

Module Py.

(** [str.isspace] on one code point: CPython's [_PyUnicode_IsWhitespace]. *)
Definition isspace (c : char) : bool :=
  ((9 <=? c) && (c <=? 13)) || ((28 <=? c) && (c <=? 32))
  || (c =? 133) || (c =? 160) || (c =? 5760)
  || ((8192 <=? c) && (c <=? 8202))
  || (c =? 8232) || (c =? 8233) || (c =? 8239) || (c =? 8287)
  || (c =? 12288).

Definition nonspace (c : char) : bool := negb (isspace c).

Fixpoint dropwhile {A} (p : A -> bool) (l : list A) : list A :=
  match l with
  | [] => []
  | x :: l' => if p x then dropwhile p l' else l
  end.

Fixpoint takewhile {A} (p : A -> bool) (l : list A) : list A :=
  match l with
  | [] => []
  | x :: l' => if p x then x :: takewhile p l' else []
  end.

(** [s.lstrip()], [s.rstrip()], [s.strip()] without argument. *)
Definition lstrip (s : str) : str := dropwhile isspace s.
Definition rstrip (s : str) : str := rev (dropwhile isspace (rev s)).
Definition strip (s : str) : str := rstrip (lstrip s).

(** [s.startswith(prefix)]. *)
Fixpoint startswith (s prefix : str) : bool :=
  match prefix, s with
  | [], _ => true
  | _ :: _, [] => false
  | p :: prefix', c :: s' => (c =? p) && startswith s' prefix'
  end.

(** [s.endswith(suffix)]. *)
Definition endswith (s suffix : str) : bool :=
  startswith (rev s) (rev suffix).

(** [s == ""]. *)
Definition is_empty (s : str) : bool :=
  match s with [] => true | _ => false end.

(** [s.split(None, maxsplit)]: CPython's [split_whitespace].  While
    [maxcount] splits remain, leading whitespace is skipped and the next
    whitespace-free run is cut off; once the count is used up, whitespace
    is skipped once more and what is left, if anything, is the last
    field, copied to the end of the string as it is. *)
Fixpoint split_whitespace (maxcount : nat) (s : str) : list str :=
  match maxcount with
  | O =>
      match lstrip s with
      | [] => []
      | r => [r]
      end
  | S n =>
      match lstrip s with
      | [] => []
      | r => takewhile nonspace r :: split_whitespace n (dropwhile nonspace r)
      end
  end.

(** [s[:n]]. *)
Definition slice_to (n : nat) (s : str) : str := take n s.

(** Text-mode [open] reads with universal newlines: [\r\n] and a lone
    [\r] both arrive as [\n]. *)
Definition LF : char := 10.
Definition CR : char := 13.

Fixpoint universal_newlines (s : str) : str :=
  match s with
  | [] => []
  | c :: s' =>
      if c =? CR then
        LF :: match s' with
              | [] => []
              | d :: s'' => if d =? LF then universal_newlines s''
                            else universal_newlines s'
              end
      else c :: universal_newlines s'
  end.

(** Iterating over a text file yields its lines, each with its
    terminating [\n]; only the last one may lack it. *)
Fixpoint iter_lines (s : str) : list str :=
  match s with
  | [] => []
  | c :: s' =>
      if c =? LF then [c] :: iter_lines s'
      else match iter_lines s' with
           | [] => [[c]]
           | l :: ls => (c :: l) :: ls
           end
  end.

End Py.

(** ** Exceptions, results and the module-level state *)

Inductive exn : Type :=
| ValueError                              (* wrong number of values to unpack *)
| NameError (name : str)
| FileNotFoundError (path : str)
| IsADirectoryError (path : str)
| ModuleNotFoundError (name : str)
| ImportError (module attr : str).

Inductive result (A : Type) : Type :=
| Ok (a : A)
| Raise (e : exn).
Arguments Ok {A} a.
Arguments Raise {A} e.

(** [ModuleNotFoundError] is a subclass of [ImportError]. *)
Definition is_import_error (e : exn) : bool :=
  match e with
  | ModuleNotFoundError _ | ImportError _ _ => true
  | _ => false
  end.

(** A directory on disk: its regular files by name, each with its content.
    Directories that also hold sub-directories come with [Entries], further
    down. *)
Abbreviation directory data := (gmap str data).

(** An importable module, with its [__version__] attribute if it has one. *)
Record pymodule : Type := { version : option str }.

(** What the configuration reads from its environment: the modules that
    can be imported, and the text files of the working directory, decoded. *)
Record world : Type := {
  modules : gmap str pymodule;
  cwd : directory str;
}.

(** The intersphinx dict literal, in insertion order: name to
    (base URL, inventory), the inventory always [None]. *)
Definition mapping : Type := list (str * (str * option str)).

(** The two module-level names assigned by the modelled statements;
    [None] while a name is still unbound. *)
Record globals : Type := {
  intersphinx_mapping : option mapping;
  nitpick_ignore : option (list (str * str));
}.

(** Statements update a state [S] (the globals, or a directory on disk)
    and either finish or raise.  Nothing in the file catches these
    exceptions, so a raised one ends the configuration load with the state
    as it is at that point. *)
Definition M (S A : Type) : Type := S -> S * result A.

Definition ret {S A} (a : A) : M S A := fun s => (s, Ok a).
Definition bind {S A B} (m : M S A) (k : A -> M S B) : M S B :=
  fun s => match m s with
           | (s', Ok a) => k a s'
           | (s', Raise e) => (s', Raise e)
           end.
Definition lift {S A} (r : result A) : M S A := fun s => (s, r).

Notation "x <~ c ;; k" := (bind c (fun x => k))
  (at level 100, c at next level, right associativity).
Notation "c ;; k" := (bind c (fun _ => k))
  (at level 100, right associativity).

(** [for x in xs: body(x)], where [continue] is the body returning early. *)
Fixpoint for_ {S A} (xs : list A) (body : A -> M S unit) : M S unit :=
  match xs with
  | [] => ret tt
  | x :: xs' => body x ;; for_ xs' body
  end.

(** ** Imports (lines 28 to 55) *)

(** [import name]. *)
Definition import (w : world) (name : str) : result pymodule :=
  match modules w !! name with
  | Some m => Ok m
  | None => Raise (ModuleNotFoundError name)
  end.

(** [from name import __version__]. *)
Definition from_import_version (w : world) (name : str) : result str :=
  match import w name with
  | Ok m =>
      match version m with
      | Some v => Ok v
      | None => Raise (ImportError name (py "__version__"))
      end
  | Raise e => Raise e
  end.

(** Lines 28 to 42, called on line 55 before anything else is set up. *)
Definition _workaround_imports_typechecking (w : world) : M globals unit :=
  _ <~ lift (import w (py "ipywidgets")) ;;
  _ <~ lift (import w (py "meshio")) ;;
  _ <~ lift (import w (py "pandas")) ;;
  _ <~ lift (import w (py "pint")) ;;
  _ <~ lift (import w (py "sympy")) ;;
  _ <~ lift (import w (py "xarray")) ;;
  ret tt.

(** The full dotted name of [part] inside the package [parent]. *)
Definition qualify (parent part : str) : str :=
  if Py.is_empty parent then part else parent ++ py "." ++ part.

(** [import a.b.c]: the packages on the way are imported first, each under
    its full name. *)
Fixpoint import_dotted (w : world) (parent : str) (parts : list str) : result unit :=
  match parts with
  | [] => Ok tt
  | part :: parts' =>
      match import w (qualify parent part) with
      | Ok _ => import_dotted w (qualify parent part) parts'
      | Raise e => Raise e
      end
  end.

(** Lines 45 to 51, called on line 54. *)
Definition _prevent_sphinx_circular_imports_bug (w : world) : M globals unit :=
  lift (import_dotted w [] [py "sphinx"; py "builders"; py "html"]) ;;
  lift (import_dotted w [] [py "sphinx"; py "builders"; py "latex"]) ;;
  lift (import_dotted w [] [py "sphinx"; py "builders"; py "texinfo"]) ;;
  lift (import_dotted w [] [py "sphinx"; py "builders"; py "text"]) ;;
  lift (import_dotted w [] [py "sphinx"; py "ext"; py "autodoc"]).

(** Lines 54 and 55. *)
Definition preamble (w : world) : M globals unit :=
  _prevent_sphinx_circular_imports_bug w ;;
  _workaround_imports_typechecking w.

(** ** Tutorial staging (lines 72 to 83) *)

(** Shell-style patterns as [fnmatch] reads them: [*] is any run of
    characters, [?] any one character, anything else stands for itself.
    (Bracket classes are left out: neither pattern of [_exts] has one.)
    Matching is case-sensitive and the whole name has to match. *)
Inductive pattern_item : Type :=
| AnyRun
| AnyChar
| Literal (c : char).

Definition translate (pattern : str) : list pattern_item :=
  map (fun c => if c =? 42 then AnyRun
                else if c =? 63 then AnyChar
                else Literal c) pattern.

Fixpoint suffixes (s : str) : list str :=
  s :: match s with
       | [] => []
       | _ :: s' => suffixes s'
       end.

Fixpoint match_items (items : list pattern_item) (name : str) : bool :=
  match items with
  | [] => Py.is_empty name
  | AnyRun :: items' => existsb (match_items items') (suffixes name)
  | AnyChar :: items' =>
      match name with
      | [] => false
      | _ :: name' => match_items items' name'
      end
  | Literal c :: items' =>
      match name with
      | [] => false
      | d :: name' => (d =? c) && match_items items' name'
      end
  end.

Definition fnmatch (name pattern : str) : bool :=
  match_items (translate pattern) name.

Section Staging.

(** File contents are copied as they are; their type plays no role. *)
Context {data : Type}.

(** [Path(dir).glob(pattern)] for a pattern with no separator: the names
    of the entries of [dir] that match, in the order the directory lists
    them. *)
Definition glob (dir : directory data) (pattern : str) : list str :=
  List.filter (fun name => fnmatch name pattern) (map fst (map_to_list dir)).

(** [shutil.copy(src / name, dst)] with [dst] a directory: the file is
    written to [dst / name], replacing a file already there.  A source
    file that does not exist makes it raise. *)
Definition shutil_copy (src : directory data) (name : str) : M (directory data) unit :=
  fun dst =>
    match src !! name with
    | None => (dst, Raise (FileNotFoundError name))
    | Some content => (<[name := content]> dst, Ok tt)
    end.

Definition _exts : list str := [py "*.ipynb"; py "*.py"].

(** [tutorials] is the source directory [./../tutorials/]; the state is
    the destination [tutorials_dir]. *)
Definition _copy_tut_files (tutorials : directory data) : M (directory data) unit :=
  let tutorial_files :=
    fold_left (fun tutorial_files ext => tutorial_files ++ glob tutorials ext)
              _exts [] in
  for_ tutorial_files (fun f => shutil_copy tutorials f).

End Staging.

(** *** Staging when a directory also holds sub-directories

    The same three functions over directories whose entries are regular
    files or sub-directories, for what the primitives do with the latter:
    [glob] yields every entry whose name matches, and [shutil.copy] raises
    when the source is a directory or when a directory stands where the
    copy is to be written. *)
Module Entries.

Inductive node (A : Type) : Type :=
| File (content : A)
| Directory.
Arguments File {A} content.
Arguments Directory {A}.

Section Staging.

Context {data : Type}.

Definition glob (dir : gmap str (node data)) (pattern : str) : list str :=
  List.filter (fun name => fnmatch name pattern) (map fst (map_to_list dir)).

Definition shutil_copy (src : gmap str (node data)) (name : str)
  : M (gmap str (node data)) unit :=
  fun dst =>
    match src !! name with
    | None => (dst, Raise (FileNotFoundError name))
    | Some Directory => (dst, Raise (IsADirectoryError name))
    | Some (File content) =>
        match dst !! name with
        | Some Directory => (dst, Raise (IsADirectoryError name))
        | _ => (<[name := File content]> dst, Ok tt)
        end
    end.

Definition _copy_tut_files (tutorials : gmap str (node data))
  : M (gmap str (node data)) unit :=
  let tutorial_files :=
    fold_left (fun tutorial_files ext => tutorial_files ++ glob tutorials ext)
              _exts [] in
  for_ tutorial_files (fun f => shutil_copy tutorials f).

End Staging.

End Entries.

(** ** Intersphinx mapping (lines 265 to 298) *)

Definition _get_intersphinx_mapping (w : world) : M globals mapping :=
  asdf_version <~ lift (from_import_version w (py "asdf")) ;;
  matplotlib_version <~ lift (from_import_version w (py "matplotlib")) ;;
  numpy_version <~ lift (from_import_version w (py "numpy")) ;;
  pandas_version <~ lift (from_import_version w (py "pandas")) ;;
  pint_version <~ lift (from_import_version w (py "pint")) ;;
  scipy_version <~ lift (from_import_version w (py "scipy")) ;;
  let intersphinx_mapping_ : mapping := [
    (py "python", (py "https://docs.python.org/3/", None));
    (py "numpy",
      (py "https://numpy.org/doc/" ++ Py.slice_to 4 numpy_version, None));
    (py "pandas",
      (py "https://pandas.pydata.org/pandas-docs/version/"
         ++ pandas_version ++ py "/", None));
    (py "xarray", (py "https://docs.xarray.dev/en/v2022.06.0/", None));
    (py "scipy",
      (py "https://docs.scipy.org/doc/scipy-" ++ scipy_version ++ py "/", None));
    (py "matplotlib", (py "https://matplotlib.org/" ++ matplotlib_version, None));
    (py "pint", (py "https://pint.readthedocs.io/en/" ++ pint_version, None));
    (py "jsonschema",
      (py "https://python-jsonschema.readthedocs.io/en/stable/", None));
    (py "asdf",
      (py "https://asdf.readthedocs.io/en/" ++ asdf_version ++ py "/", None));
    (py "networkx", (py "https://networkx.org/documentation/stable/", None));
    (py "IPython", (py "https://ipython.readthedocs.io/en/stable/", None));
    (py "k3d", (py "https://k3d-jupyter.org/", None))
  ] in
  ret intersphinx_mapping_.

(** [intersphinx_mapping = value]. *)
Definition assign_intersphinx_mapping (value : mapping) : M globals unit :=
  fun g => ({| intersphinx_mapping := Some value;
               nitpick_ignore := nitpick_ignore g |}, Ok tt).

(** Line 298. *)
Definition intersphinx_block (w : world) : M globals unit :=
  value <~ _get_intersphinx_mapping w ;;
  assign_intersphinx_mapping value.

(** ** Ignore-list parsing (lines 305 to 313) *)

(** [open(path)] in text mode: the decoded text, newlines translated. *)
Definition open (w : world) (path : str) : result str :=
  match cwd w !! path with
  | None => Raise (FileNotFoundError path)
  | Some text => Ok (Py.universal_newlines text)
  end.

(** [dtype, target = fields]. *)
Definition unpack2 (fields : list str) : result (str * str) :=
  match fields with
  | [a; b] => Ok (a, b)
  | _ => Raise ValueError
  end.

(** [nitpick_ignore = value]. *)
Definition bind_nitpick_ignore (g : globals) (value : list (str * str)) : globals :=
  {| intersphinx_mapping := intersphinx_mapping g;
     nitpick_ignore := Some value |}.

Definition assign_nitpick_ignore (value : list (str * str)) : M globals unit :=
  fun g => (bind_nitpick_ignore g value, Ok tt).

(** [nitpick_ignore.append(item)]. *)
Definition nitpick_ignore_append (item : str * str) : M globals unit :=
  fun g => match nitpick_ignore g with
           | Some l => assign_nitpick_ignore (l ++ [item]) g
           | None => (g, Raise (NameError (py "nitpick_ignore")))
           end.

(** The body of the loop over the lines of the file. *)
Definition nitpick_line (line : str) : M globals unit :=
  if Py.is_empty (Py.strip line) || Py.startswith line (py "#") then
    ret tt
  else
    fields <~ lift (unpack2 (Py.split_whitespace 1 line)) ;;
    let '(dtype, target) := fields in
    let target := Py.strip target in
    nitpick_ignore_append (dtype, target).

(** [fh.close()]: nothing the globals can see. *)
Definition close (fh : str) : M globals unit := ret tt.

(** Lines 305 to 313. *)
Definition nitpick_block (w : world) : M globals unit :=
  assign_nitpick_ignore [] ;;
  fh <~ lift (open w (py "nitpick_ignore")) ;;
  for_ (Py.iter_lines fh) nitpick_line ;;
  close fh.

(** Lines 298 to 313, the statements that run one after the other once
    the declarative settings are in place. *)
Definition conf_tail (w : world) : M globals unit :=
  intersphinx_block w ;;
  nitpick_block w.

(** ** Vocabulary of the properties *)

(** Empty or made of whitespace only. *)
Definition whitespace (s : str) : bool := forallb Py.isspace s.

(** Without any whitespace character. *)
Definition spacefree (s : str) : bool := forallb Py.nonspace s.

(** Not empty, and the first character is not whitespace. *)
Definition begins_text (s : str) : bool :=
  match s with
  | [] => false
  | c :: _ => Py.nonspace c
  end.

(** Not empty, and the last character is not whitespace. *)
Definition ends_text (s : str) : bool := begins_text (rev s).

(** No whitespace at either end (the empty string included). *)
Definition trimmed (s : str) : bool :=
  Py.is_empty s || (begins_text s && ends_text s).

(** The first character of the line is [#]. *)
Definition comment (line : str) : bool :=
  match line with
  | c :: _ => c =? 35
  | [] => false
  end.

(** The line without its terminating newline. *)
Definition chomp (line : str) : str :=
  match rev line with
  | c :: r => if c =? Py.LF then rev r else line
  | [] => line
  end.

(** A rule line: optional leading whitespace, a whitespace-free category,
    a whitespace separator, a target that starts and ends with text, and
    optional trailing whitespace (the line terminator is part of it). *)
Inductive rule_line : str -> str * str -> Prop :=
| RuleLine lead dtype sep target trail :
    whitespace lead = true ->
    dtype <> [] -> spacefree dtype = true ->
    sep <> [] -> whitespace sep = true ->
    begins_text target = true -> ends_text target = true ->
    whitespace trail = true ->
    rule_line (lead ++ dtype ++ sep ++ target ++ trail) (dtype, target).

(** A line with one token and nothing but whitespace around it. *)
Inductive lone_token : str -> Prop :=
| LoneToken lead tok trail :
    whitespace lead = true ->
    tok <> [] -> spacefree tok = true ->
    whitespace trail = true ->
    lone_token (lead ++ tok ++ trail).

(** A well-formed line of the ignore list: a rule line that is not taken
    for a comment. *)
Definition well_formed (line : str) : Prop :=
  comment line = false /\ exists p, rule_line line p.

(** A pair as the parser builds it: a category that is one token and a
    non-empty target without whitespace at its ends. *)
Definition proper_pair (p : str * str) : Prop :=
  p.1 <> [] /\ spacefree p.1 = true
  /\ begins_text p.2 = true /\ ends_text p.2 = true.

(** A line of text with its terminator. *)
Definition line_of (s : string) : str := py s ++ [Py.LF].

(** The name matches [*.ipynb] or [*.py]. *)
Definition tutorial_name (name : str) : bool :=
  fnmatch name (py "*.ipynb") || fnmatch name (py "*.py").

(** The name ends with [.ipynb] or with [.py]. *)
Definition has_extension (name : str) : bool :=
  Py.endswith name (py ".ipynb") || Py.endswith name (py ".py").

(** The entries to stage are regular files, and the destination has no
    directory under the name of one of them. *)
Definition regular_files {data}
    (tutorials tutorials_dir : gmap str (Entries.node data)) : Prop :=
  forall name, has_extension name = true -> is_Some (tutorials !! name) ->
    tutorials !! name <> Some Entries.Directory
    /\ tutorials_dir !! name <> Some Entries.Directory.

(** No entry of the directory is a sub-directory. *)
Definition only_files {data} (dir : gmap str (Entries.node data)) : bool :=
  forallb (fun entry => match entry.2 with
                        | Entries.File _ => true
                        | Entries.Directory => false
                        end)
          (map_to_list dir).

(** A directory of regular files, as one with entries. *)
Definition as_entries {data} (dir : directory data) : gmap str (Entries.node data) :=
  Entries.File <$> dir.

(** The libraries whose version strings go into the intersphinx URLs. *)
Definition versioned_libraries : list str :=
  [py "asdf"; py "matplotlib"; py "numpy"; py "pandas"; py "pint"; py "scipy"].

(** The lines the loop iterates over, for a file holding [text]. *)
Definition file_lines (text : str) : list str :=
  Py.iter_lines (Py.universal_newlines text).

(** A world whose working directory holds the ignore-list [text]. *)
Definition ignore_list (w : world) (text : str) : Prop :=
  cwd w !! py "nitpick_ignore" = Some text.

(** The smallest such world, and globals with nothing bound yet. *)
Definition world_with (text : str) : world :=
  {| modules := ∅; cwd := {[ py "nitpick_ignore" := text ]} |}.

Definition unbound : globals :=
  {| intersphinx_mapping := None; nitpick_ignore := None |}.

(** The loop passes over the line: it is blank or starts with [#]. *)
Definition skipped (line : str) : bool := whitespace line || comment line.

(** The lines the loop does not pass over. *)
Definition rule_lines (lines : list str) : list str :=
  List.filter (fun line => negb (skipped line)) lines.

(** The line ends with a newline. *)
Fixpoint ends_newline (line : str) : bool :=
  match line with
  | [] => false
  | c :: line' =>
      match line' with
      | [] => c =? Py.LF
      | _ => ends_newline line'
      end
  end.

(** The lines of a text once a newline is added at its end: the last line
    gets its terminator, or, having one, is followed by an empty line. *)
Fixpoint close_last (lines : list str) : list str :=
  match lines with
  | [] => [[Py.LF]]
  | l :: ls =>
      match ls with
      | [] => if ends_newline l then [l; [Py.LF]] else [l ++ [Py.LF]]
      | _ => l :: close_last ls
      end
  end.

(** The modules lines 54 and 55 import, packages on the way included. *)
Definition preamble_modules : list str :=
  [py "sphinx"; py "sphinx.builders"; py "sphinx.builders.html";
   py "sphinx.builders.latex"; py "sphinx.builders.texinfo";
   py "sphinx.builders.text"; py "sphinx.ext"; py "sphinx.ext.autodoc";
   py "ipywidgets"; py "meshio"; py "pandas"; py "pint"; py "sympy";
   py "xarray"].



(** The list the first loop of [_copy_tut_files] builds. *)
Definition tutorial_files {data} (tutorials : directory data) : list str :=
  fold_left (fun tutorial_files ext => tutorial_files ++ glob tutorials ext)
            _exts [].

(** * Properties *)

(** ** Stripping and splitting *)

Section While.
Context {A : Type} (p : A -> bool).

Lemma takewhile_dropwhile (l : list A) :
  Py.takewhile p l ++ Py.dropwhile p l = l.
Proof.
  induction l as [|x l IH]; simpl; [done|].
  destruct (p x); simpl; [by rewrite IH | done].
Qed.

Lemma forallb_takewhile (l : list A) : forallb p (Py.takewhile p l) = true.
Proof.
  induction l as [|x l IH]; simpl; [done|].
  destruct (p x) eqn:E; simpl; [by rewrite E | done].
Qed.

Lemma dropwhile_all (a b : list A) :
  forallb p a = true -> Py.dropwhile p (a ++ b) = Py.dropwhile p b.
Proof.
  induction a as [|x a IH]; simpl; [done|].
  intros [-> H]%andb_true_iff. by apply IH.
Qed.

Lemma takewhile_all (a b : list A) :
  forallb p a = true -> Py.takewhile p (a ++ b) = a ++ Py.takewhile p b.
Proof.
  induction a as [|x a IH]; simpl; [done|].
  intros [-> H]%andb_true_iff. by rewrite IH.
Qed.

Lemma dropwhile_forallb (l : list A) :
  Py.dropwhile p l = [] <-> forallb p l = true.
Proof.
  induction l as [|x l IH]; simpl; [done|].
  destruct (p x); simpl; [done|]. split; discriminate.
Qed.

Lemma dropwhile_stops (l : list A) :
  match Py.dropwhile p l with
  | [] => True
  | x :: _ => p x = false
  end.
Proof.
  induction l as [|x l IH]; simpl; [done|].
  destruct (p x) eqn:E; [done|]. simpl. done.
Qed.

Lemma forallb_rev (l : list A) : forallb p (rev l) = forallb p l.
Proof.
  induction l as [|x l IH]; simpl; [done|].
  rewrite forallb_app, IH. simpl. by rewrite andb_true_r, andb_comm.
Qed.
End While.

Lemma nonspace_isspace (c : char) : Py.nonspace c = true <-> Py.isspace c = false.
Proof. unfold Py.nonspace. by destruct (Py.isspace c). Qed.

Lemma begins_text_lstrip (s : str) : begins_text s = true -> Py.lstrip s = s.
Proof.
  destruct s as [|c s]; [done|]. unfold Py.lstrip. simpl.
  intros ->%nonspace_isspace. done.
Qed.

Lemma token_begins_text (tok r : str) :
  tok <> [] -> spacefree tok = true -> begins_text (tok ++ r) = true.
Proof.
  destruct tok as [|c tok]; [done|]. simpl.
  by intros _ [-> _]%andb_true_iff.
Qed.

(** Where a whitespace-free run ends: at the end of the string or at a
    whitespace character. *)
Lemma takewhile_nonspace_sep (sep rest : str) :
  whitespace sep = true -> rest = [] \/ sep <> [] ->
  Py.takewhile Py.nonspace (sep ++ rest) = [].
Proof.
  destruct sep as [|c sep]; simpl.
  - intros _ [-> | ?]; done.
  - unfold Py.nonspace. by intros [-> _]%andb_true_iff _.
Qed.

Lemma dropwhile_nonspace_sep (sep rest : str) :
  whitespace sep = true -> rest = [] \/ sep <> [] ->
  Py.dropwhile Py.nonspace (sep ++ rest) = sep ++ rest.
Proof.
  destruct sep as [|c sep]; simpl.
  - intros _ [-> | ?]; done.
  - unfold Py.nonspace. by intros [-> _]%andb_true_iff _.
Qed.

(** The two shapes [split(None, 1)] can meet on a line that is not blank. *)
Lemma split_whitespace_fields (lead tok sep rest : str) :
  whitespace lead = true ->
  tok <> [] -> spacefree tok = true ->
  whitespace sep = true ->
  rest = [] \/ (sep <> [] /\ begins_text rest = true) ->
  Py.split_whitespace 1 (lead ++ tok ++ sep ++ rest)
  = tok :: match rest with [] => [] | _ => [rest] end.
Proof.
  intros Hlead Htok Hfree Hsep Hrest.
  assert (Hor : rest = [] \/ sep <> []) by (destruct Hrest as [?|[? _]]; auto).
  cbn [Py.split_whitespace]. unfold Py.lstrip at 1.
  rewrite (dropwhile_all _ _ _ Hlead).
  pose proof (token_begins_text tok (sep ++ rest) Htok Hfree) as Hb.
  apply begins_text_lstrip in Hb. unfold Py.lstrip in Hb. rewrite Hb.
  destruct (tok ++ sep ++ rest) as [|c r] eqn:E.
  { destruct tok; done. }
  rewrite <- E.
  rewrite (takewhile_all _ _ _ Hfree), (dropwhile_all _ _ _ Hfree).
  rewrite takewhile_nonspace_sep, dropwhile_nonspace_sep by done.
  rewrite app_nil_r. f_equal.
  unfold Py.lstrip. rewrite (dropwhile_all _ _ _ Hsep).
  destruct Hrest as [-> | [_ Hb']]; [done|].
  apply begins_text_lstrip in Hb'. unfold Py.lstrip in Hb'. rewrite Hb'.
  by destruct rest.
Qed.

Lemma rstrip_trailing (s trail : str) :
  ends_text s = true -> whitespace trail = true -> Py.rstrip (s ++ trail) = s.
Proof.
  intros Hs Ht. unfold Py.rstrip. rewrite rev_app_distr.
  rewrite dropwhile_all by (unfold whitespace in Ht; by rewrite forallb_rev).
  apply begins_text_lstrip in Hs. unfold Py.lstrip in Hs.
  by rewrite Hs, rev_involutive.
Qed.

Lemma strip_target (target trail : str) :
  begins_text target = true -> ends_text target = true ->
  whitespace trail = true -> Py.strip (target ++ trail) = target.
Proof.
  intros Hb He Ht. unfold Py.strip.
  rewrite begins_text_lstrip; [by apply rstrip_trailing|].
  by destruct target.
Qed.

(** [line.strip() == ""] says the line is blank. *)
Lemma strip_empty_whitespace (s : str) :
  Py.is_empty (Py.strip s) = whitespace s.
Proof.
  unfold Py.strip, Py.rstrip, Py.lstrip, whitespace.
  destruct (forallb Py.isspace s) eqn:E.
  - apply dropwhile_forallb in E. by rewrite E.
  - pose proof (dropwhile_stops Py.isspace s) as Hs.
    destruct (Py.dropwhile Py.isspace s) as [|c r] eqn:Ed.
    { apply dropwhile_forallb in Ed. congruence. }
    simpl. destruct (Py.dropwhile Py.isspace (rev r ++ [c])) eqn:Er.
    + apply dropwhile_forallb in Er. rewrite forallb_app in Er. simpl in Er.
      rewrite Hs in Er. by rewrite andb_false_r in Er.
    + simpl. by destruct (rev l).
Qed.

(** What [rstrip] removes is a run of whitespace at the end. *)
Lemma rstrip_decompose (s : str) :
  begins_text s = true ->
  exists trail, s = Py.rstrip s ++ trail /\ whitespace trail = true
    /\ begins_text (Py.rstrip s) = true /\ ends_text (Py.rstrip s) = true.
Proof.
  intros Hb. exists (rev (Py.takewhile Py.isspace (rev s))).
  assert (Hs : s = Py.rstrip s ++ rev (Py.takewhile Py.isspace (rev s))).
  { unfold Py.rstrip. rewrite <- rev_app_distr, takewhile_dropwhile.
    by rewrite rev_involutive. }
  assert (He : ends_text (Py.rstrip s) = true).
  { unfold ends_text, Py.rstrip. rewrite rev_involutive.
    pose proof (dropwhile_stops Py.isspace (rev s)) as Hd.
    destruct (Py.dropwhile Py.isspace (rev s)) as [|c r] eqn:E.
    - apply dropwhile_forallb in E. rewrite forallb_rev in E.
      destruct s as [|c s]; [done|]. simpl in *.
      apply nonspace_isspace in Hb. by rewrite Hb in E.
    - simpl. by apply nonspace_isspace. }
  split_and!; [done | | | done].
  - unfold whitespace. rewrite forallb_rev. apply forallb_takewhile.
  - destruct (Py.rstrip s) as [|c r] eqn:E; [done|].
    rewrite Hs in Hb. done.
Qed.

(** Every line is blank, a rule line, or a lone token. *)
Lemma line_shape (line : str) :
  whitespace line = true \/ (exists p, rule_line line p) \/ lone_token line.
Proof.
  destruct (whitespace line) eqn:Hw; [by left | right].
  set (lead := Py.takewhile Py.isspace line).
  set (x := Py.dropwhile Py.isspace line).
  set (tok := Py.takewhile Py.nonspace x).
  set (y := Py.dropwhile Py.nonspace x).
  set (sep := Py.takewhile Py.isspace y).
  set (rest := Py.dropwhile Py.isspace y).
  assert (Hline : line = lead ++ tok ++ sep ++ rest).
  { subst lead tok sep rest y x. by rewrite !takewhile_dropwhile. }
  assert (Hlead : whitespace lead = true) by apply forallb_takewhile.
  assert (Hfree : spacefree tok = true) by apply forallb_takewhile.
  assert (Hsep : whitespace sep = true) by apply forallb_takewhile.
  assert (Htok : tok <> []).
  { pose proof (dropwhile_stops Py.isspace line) as Hx. fold x in Hx.
    subst tok. destruct x as [|c r] eqn:Ex.
    - apply dropwhile_forallb in Ex. unfold whitespace in Hw. congruence.
    - simpl. apply nonspace_isspace in Hx. by rewrite Hx. }
  pose proof (dropwhile_stops Py.isspace y) as Hrest. fold rest in Hrest.
  destruct rest as [|c r] eqn:Er.
  - right. rewrite Hline, app_nil_r. by constructor.
  - left. assert (Hb : begins_text (c :: r) = true) by by apply nonspace_isspace.
    destruct (rstrip_decompose _ Hb) as (trail & Hs & Ht & Hb' & He').
    remember (Py.rstrip (c :: r)) as target eqn:Etarget.
    exists (tok, target). rewrite Hline, Hs.
    constructor; try done.
    intros Hnil. pose proof (dropwhile_stops Py.nonspace x) as Hy. fold y in Hy.
    assert (Hyr : y = c :: r).
    { rewrite <- (takewhile_dropwhile Py.isspace y). fold sep rest.
      by rewrite Hnil, Er. }
    rewrite Hyr in Hy. simpl in Hb. congruence.
Qed.

(** ** Lines of a file *)

(** The lines put together are the text again, and no line is empty. *)
Lemma iter_lines_concat (s : str) : concat (Py.iter_lines s) = s.
Proof.
  induction s as [|c s IH]; simpl; [done|].
  destruct (c =? Py.LF); simpl; [by rewrite IH|].
  destruct (Py.iter_lines s) as [|l ls]; simpl in *; by rewrite <- IH.
Qed.

Lemma iter_lines_nonempty (s : str) : Forall (fun l => l <> []) (Py.iter_lines s).
Proof.
  induction s as [|c s IH]; simpl; [constructor|].
  destruct (c =? Py.LF); [by constructor|].
  destruct (Py.iter_lines s) as [|l ls]; [by repeat constructor|].
  inversion IH. by constructor.
Qed.

Example file_lines_newlines :
  file_lines (py "a b" ++ [Py.CR; Py.LF] ++ py "c d" ++ [Py.CR] ++ py "e f")
  = [line_of "a b"; line_of "c d"; py "e f"].
Proof. reflexivity. Qed.

Example split_whitespace_examples :
  Py.split_whitespace 1 (py "  a   b c  ") = [py "a"; py "b c  "]
  /\ Py.split_whitespace 1 (py "a  ") = [py "a"]
  /\ Py.split_whitespace 1 (py "   ") = []
  /\ Py.strip (py "  b c  ") = py "b c".
Proof. repeat split. Qed.

(** ** Patterns with one leading star *)

Lemma match_literals (lits s : str) :
  match_items (map Literal lits) s = true <-> s = lits.
Proof.
  revert s. induction lits as [|c lits IH]; intros [|d s]; simpl; try done.
  rewrite andb_true_iff, N.eqb_eq, IH. split; [intros [-> ->] | intros [= -> ->]]; done.
Qed.

Lemma existsb_suffixes (f : str -> bool) (s : str) :
  existsb f (suffixes s) = true <-> exists pre suf, s = pre ++ suf /\ f suf = true.
Proof.
  induction s as [|c s IH].
  - simpl. rewrite orb_false_r. split.
    + intros H. by exists [], [].
    + intros (pre & suf & Hs & Hf). symmetry in Hs.
      apply app_eq_nil in Hs as [_ ->]. done.
  - cbn [suffixes existsb]. rewrite orb_true_iff, IH. split.
    + intros [H | (pre & suf & -> & Hf)].
      * by exists [], (c :: s).
      * by exists (c :: pre), suf.
    + intros ([|d pre] & suf & Hs & Hf).
      * left. simpl in Hs. by rewrite Hs.
      * right. injection Hs as -> ->. by exists pre, suf.
Qed.

Lemma startswith_prefix (s p : str) :
  Py.startswith s p = true <-> exists r, s = p ++ r.
Proof.
  revert s. induction p as [|c p IH]; intros s.
  - destruct s; simpl; split; eauto.
  - destruct s as [|d s]; simpl.
    + split; [done | by intros [r ?]].
    + rewrite andb_true_iff, N.eqb_eq, IH. split.
      * intros [-> [r ->]]. by exists r.
      * intros [r [= -> ->]]. eauto.
Qed.

Lemma endswith_suffix (s x : str) :
  Py.endswith s x = true <-> exists pre, s = pre ++ x.
Proof.
  unfold Py.endswith. rewrite startswith_prefix. split.
  - intros [r Hr]. exists (rev r).
    by rewrite <- (rev_involutive s), Hr, rev_app_distr, rev_involutive.
  - intros [pre ->]. exists (rev pre). by rewrite rev_app_distr.
Qed.

(** A name matches [*] followed by plain characters when it ends with them. *)
Lemma fnmatch_star (name lits : str) :
  translate (py "*" ++ lits) = AnyRun :: map Literal lits ->
  fnmatch name (py "*" ++ lits) = Py.endswith name lits.
Proof.
  intros Htr. unfold fnmatch. rewrite Htr. cbn [match_items].
  apply eq_true_iff_eq. rewrite existsb_suffixes, endswith_suffix. split.
  - intros (pre & suf & -> & ->%match_literals). by exists pre.
  - intros [pre ->]. exists pre, lits. split; [done|]. by apply match_literals.
Qed.

(** The names the staging picks are those with one of the two extensions. *)
Lemma tutorial_name_extension (name : str) :
  tutorial_name name
  = Py.endswith name (py ".ipynb") || Py.endswith name (py ".py").
Proof.
  unfold tutorial_name.
  change (py "*.ipynb") with (py "*" ++ py ".ipynb").
  change (py "*.py") with (py "*" ++ py ".py").
  by rewrite !fnmatch_star.
Qed.

(** ** One line of the ignore list *)

Lemma startswith_hash (line : str) : Py.startswith line (py "#") = comment line.
Proof.
  change (py "#") with [35]. destruct line as [|c l]; [done|].
  simpl. destruct l; apply andb_true_r.
Qed.

Lemma token_not_whitespace (lead tok r : str) :
  tok <> [] -> spacefree tok = true -> whitespace (lead ++ tok ++ r) = false.
Proof.
  intros Htok Hfree. unfold whitespace. rewrite forallb_app.
  destruct tok as [|c tok]; [done|]. simpl in *.
  apply andb_true_iff in Hfree as [Hc%nonspace_isspace _].
  rewrite Hc. apply andb_false_r.
Qed.

Lemma rule_line_not_blank (line : str) (p : str * str) :
  rule_line line p -> whitespace line = false.
Proof. intros []. by apply token_not_whitespace. Qed.

Lemma lone_token_not_blank (line : str) : lone_token line -> whitespace line = false.
Proof. intros []. by apply token_not_whitespace. Qed.

(** The fields of a rule line: the category, and the whole remainder. *)
Lemma rule_line_split (line : str) (p : str * str) :
  rule_line line p ->
  exists rest, Py.split_whitespace 1 line = [p.1; rest] /\ Py.strip rest = p.2.
Proof.
  intros [lead dtype sep target trail Hlead Hd Hfree Hs Hsep Hb He Ht].
  exists (target ++ trail). split; [|by apply strip_target].
  rewrite split_whitespace_fields; try done.
  - by destruct target.
  - right. split; [done|]. by destruct target.
Qed.

Lemma lone_token_split (line : str) :
  lone_token line -> exists tok, Py.split_whitespace 1 line = [tok].
Proof.
  intros [lead tok trail Hlead Htok Hfree Htrail]. exists tok.
  rewrite <- (app_nil_r trail).
  rewrite split_whitespace_fields; auto.
Qed.

Lemma rule_line_functional (line : str) (p q : str * str) :
  rule_line line p -> rule_line line q -> p = q.
Proof.
  intros (r & Hp & Hr)%rule_line_split (r' & Hq & Hr')%rule_line_split.
  rewrite Hp in Hq. injection Hq as H1 H2. subst r'.
  destruct p, q; simpl in *; congruence.
Qed.

Lemma nitpick_line_skipped (line : str) (g : globals) :
  whitespace line = true \/ comment line = true ->
  nitpick_line line g = (g, Ok tt).
Proof.
  intros H. unfold nitpick_line.
  rewrite strip_empty_whitespace, startswith_hash.
  by destruct H as [-> | ->]; rewrite ?orb_true_r.
Qed.

Lemma nitpick_line_rule (line : str) (p : str * str) (g : globals) acc :
  rule_line line p -> comment line = false ->
  nitpick_line line (bind_nitpick_ignore g acc)
  = (bind_nitpick_ignore g (acc ++ [p]), Ok tt).
Proof.
  intros Hrule Hc. unfold nitpick_line.
  rewrite strip_empty_whitespace, startswith_hash, Hc.
  rewrite (rule_line_not_blank _ _ Hrule). cbn [orb].
  destruct (rule_line_split _ _ Hrule) as (rest & -> & Hrest).
  unfold bind, lift, unpack2, nitpick_ignore_append, assign_nitpick_ignore.
  cbn. rewrite Hrest. by destruct p.
Qed.

Lemma nitpick_line_lone (line : str) (g : globals) :
  lone_token line -> comment line = false ->
  nitpick_line line g = (g, Raise ValueError).
Proof.
  intros Hlone Hc. unfold nitpick_line.
  rewrite strip_empty_whitespace, startswith_hash, Hc.
  rewrite (lone_token_not_blank _ Hlone). cbn [orb].
  destruct (lone_token_split _ Hlone) as (tok & ->). done.
Qed.

(** ** The loop over the lines *)

Lemma for_cons {S A} (x : A) (xs : list A) (body : A -> M S unit) (s : S) :
  for_ (x :: xs) body s
  = match body x s with
    | (s', Ok _) => for_ xs body s'
    | (s', Raise e) => (s', Raise e)
    end.
Proof. reflexivity. Qed.

Lemma rule_line_proper (line : str) (p : str * str) :
  rule_line line p -> proper_pair p.
Proof. intros []. by repeat split. Qed.

Lemma proper_pair_trimmed (p : str * str) :
  proper_pair p -> trimmed p.1 = true /\ trimmed p.2 = true.
Proof.
  destruct p as [d t]. intros (Hd & Hfree & Hb & He). simpl in *.
  unfold trimmed. rewrite Hb, He, orb_true_r. split; [|done].
  assert (Hr : rev d <> []).
  { intros E. apply (f_equal (@rev _)) in E. by rewrite rev_involutive in E. }
  pose proof (token_begins_text d [] Hd Hfree) as H1.
  unfold spacefree in Hfree. rewrite <- forallb_rev in Hfree.
  pose proof (token_begins_text (rev d) [] Hr Hfree) as H2.
  rewrite app_nil_r in H1, H2. unfold ends_text.
  by rewrite H1, H2, orb_true_r.
Qed.

(** When every line is well formed the loop appends one pair per line. *)
Lemma loop_well_formed (lines : list str) :
  Forall well_formed lines ->
  exists pairs, Forall2 rule_line lines pairs /\
    forall g acc, for_ lines nitpick_line (bind_nitpick_ignore g acc)
                  = (bind_nitpick_ignore g (acc ++ pairs), Ok tt).
Proof.
  induction 1 as [|line lines [Hc [p Hp]] _ (pairs & Hpairs & IH)].
  - exists []. split; [constructor|]. intros g acc. by rewrite app_nil_r.
  - exists (p :: pairs). split; [by constructor|]. intros g acc.
    rewrite for_cons, (nitpick_line_rule _ _ _ _ Hp Hc), IH.
    by rewrite <- app_assoc.
Qed.

(** Whatever the lines, the loop ends normally or with [ValueError], what
    it has appended are proper pairs, and a lone token that is not a
    comment makes it raise. *)
Lemma loop_outcome (lines : list str) (g : globals) acc :
  exists pairs r,
    for_ lines nitpick_line (bind_nitpick_ignore g acc)
    = (bind_nitpick_ignore g (acc ++ pairs), r)
    /\ Forall proper_pair pairs
    /\ (r = Ok tt \/ r = Raise ValueError)
    /\ (Exists (fun l => comment l = false /\ lone_token l) lines ->
        r = Raise ValueError).
Proof.
  revert acc. induction lines as [|line lines IH]; intros acc.
  - exists [], (Ok tt). rewrite app_nil_r. split_and!; auto.
    intros H. inversion H.
  - rewrite for_cons.
    destruct (comment line) eqn:Hc;
      [|destruct (line_shape line) as [Hw | [[p Hp] | Hl]]].
    + rewrite nitpick_line_skipped by auto.
      destruct (IH acc) as (pairs & r & -> & H1 & H2 & H3).
      exists pairs, r. split_and!; auto.
      intros [[? _]|?]%Exists_cons; [congruence | auto].
    + rewrite nitpick_line_skipped by auto.
      destruct (IH acc) as (pairs & r & -> & H1 & H2 & H3).
      exists pairs, r. split_and!; auto.
      intros [[_ ?%lone_token_not_blank]|?]%Exists_cons; [congruence | auto].
    + rewrite (nitpick_line_rule _ _ _ _ Hp Hc).
      destruct (IH (acc ++ [p])) as (pairs & r & -> & H1 & H2 & H3).
      exists (p :: pairs), r. rewrite <- app_assoc. split_and!; auto.
      * constructor; [by eapply rule_line_proper | done].
      * intros [[_ Hl]|?]%Exists_cons; [|auto].
        destruct (lone_token_split _ Hl) as (tok & Ht).
        destruct (rule_line_split _ _ Hp) as (rest & Hs & _). congruence.
    + rewrite nitpick_line_lone by done.
      exists [], (Raise ValueError). rewrite app_nil_r. split_and!; auto.
Qed.

(** A skipped line can be taken out of the loop. *)
Lemma loop_skip (before after : list str) (line : str) (g : globals) :
  whitespace line = true \/ comment line = true ->
  for_ (before ++ line :: after) nitpick_line g
  = for_ (before ++ after) nitpick_line g.
Proof.
  intros Hskip. revert g. induction before as [|l before IH]; intros g.
  - simpl app. by rewrite for_cons, nitpick_line_skipped.
  - simpl app. rewrite !for_cons.
    destruct (nitpick_line l g) as [g' [[]|e]]; [apply IH | done].
Qed.

(** With the file in place, the block is the loop over its lines. *)
Lemma nitpick_block_file (w : world) (g : globals) (text : str) :
  ignore_list w text ->
  nitpick_block w g
  = for_ (file_lines text) nitpick_line (bind_nitpick_ignore g []).
Proof.
  intros Hfile.
  unfold nitpick_block, bind, assign_nitpick_ignore, lift, open, close, ret.
  unfold ignore_list in Hfile. rewrite Hfile. fold (file_lines text).
  by destruct (for_ _ _ _) as [g' [[]|e]].
Qed.

(** ** Ignore-list parsing: the claims *)

(** Evaluates the lines of a concrete file. *)
Ltac eval_lines :=
  match goal with
  | |- context [file_lines ?t] =>
      let ls := eval vm_compute in (file_lines t) in
      change (file_lines t) with ls
  end.

(** Shows a concrete line to be a rule line from its five parts. *)
Ltac rule_line_parts lead dtype sep target trail :=
  exact (RuleLine lead dtype sep target trail
           eq_refl ltac:(discriminate) eq_refl ltac:(discriminate)
           eq_refl eq_refl eq_refl eq_refl).

(** C1, as amended: for every ignore-list file whose lines are all well
    formed, where a well-formed line does not start with [#] and is made of
    a whitespace-free category, a whitespace separator and a target with at
    least one non-whitespace character (whitespace around them allowed),
    parsing succeeds with exactly one pair per line, in the order of the
    lines, each pair made of the category and target of its line, and no
    field has leading or trailing whitespace. *)
Theorem nitpick_ignore_one_pair_per_line (w : world) (g : globals) (text : str) :
  ignore_list w text ->
  Forall well_formed (file_lines text) ->
  exists pairs,
    nitpick_block w g = (bind_nitpick_ignore g pairs, Ok tt)
    /\ Forall2 rule_line (file_lines text) pairs
    /\ length pairs = length (file_lines text)
    /\ Forall (fun p => trimmed p.1 = true /\ trimmed p.2 = true) pairs.
Proof.
  intros Hfile Hwf.
  destruct (loop_well_formed _ Hwf) as (pairs & Hpairs & Hloop).
  exists pairs. rewrite (nitpick_block_file _ _ _ Hfile), Hloop.
  split_and!; [done | done | symmetry; by eapply Forall2_length |].
  clear Hloop. induction Hpairs as [|l p ls ps Hp _ IH]; constructor.
  - by apply proper_pair_trimmed, (rule_line_proper l).
  - apply IH. by inversion Hwf.
Qed.

Lemma nitpick_ignore_one_pair_per_line_witness :
  let text := line_of "py:class  numpy.ndarray " ++ py " py:obj a  b" in
  exists pairs,
    nitpick_block (world_with text) unbound
    = (bind_nitpick_ignore unbound pairs, Ok tt)
    /\ Forall2 rule_line (file_lines text) pairs
    /\ length pairs = length (file_lines text)
    /\ Forall (fun p => trimmed p.1 = true /\ trimmed p.2 = true) pairs.
Proof.
  intros text. apply (nitpick_ignore_one_pair_per_line (world_with text)).
  - reflexivity.
  - eval_lines. repeat constructor.
    + exists (py "py:class", py "numpy.ndarray").
      rule_line_parts (@nil char) (py "py:class") (py "  ")
                      (py "numpy.ndarray") (line_of " ").
    + exists (py "py:obj", py "a  b").
      rule_line_parts (py " ") (py "py:obj") (py " ") (py "a  b") (@nil char).
Defined.

(** C1, as stated, fails: the only line of this file is not blank, does not
    start with [#] and has whitespace before its terminator, yet parsing
    raises and leaves no pair. *)
Lemma nitpick_ignore_trailing_space_counterexample :
  let text := line_of "abc " in
  file_lines text = [text]
  /\ whitespace text = false
  /\ comment text = false
  /\ existsb Py.isspace (chomp text) = true
  /\ nitpick_block (world_with text) unbound
     = (bind_nitpick_ignore unbound [], Raise ValueError).
Proof. vm_compute. repeat split. Qed.

Lemma chomp_spacefree_lone (line : str) :
  whitespace line = false -> spacefree (chomp line) = true -> lone_token line.
Proof.
  intros Hw. unfold chomp.
  assert (Hline : line = rev (rev line)) by by rewrite rev_involutive.
  destruct (rev line) as [|c r] eqn:E.
  { rewrite Hline in Hw. done. }
  destruct (c =? Py.LF) eqn:Ec.
  - apply N.eqb_eq in Ec. subst c. simpl in Hline. intros Hfree.
    rewrite Hline. apply (LoneToken [] (rev r) [Py.LF]); try done.
    intros Hr. rewrite Hline, Hr in Hw. done.
  - intros Hfree. rewrite <- (app_nil_r line).
    apply (LoneToken [] line []); try done.
    intros ->. done.
Qed.

(** C2, as amended: for every ignore-list file, a line that is not blank,
    does not start with [#] and has no whitespace other than its line
    terminator makes parsing fail with an error; the list accumulated up to
    there holds proper two-field pairs only. *)
Theorem nitpick_ignore_no_separator_fails
    (w : world) (g : globals) (text line : str) :
  ignore_list w text ->
  line ∈ file_lines text ->
  whitespace line = false ->
  comment line = false ->
  spacefree (chomp line) = true ->
  exists pairs,
    nitpick_block w g = (bind_nitpick_ignore g pairs, Raise ValueError)
    /\ Forall proper_pair pairs.
Proof.
  intros Hfile Hin Hw Hc Hfree.
  rewrite (nitpick_block_file _ _ _ Hfile).
  destruct (loop_outcome (file_lines text) g []) as (pairs & r & -> & Hp & _ & Hr).
  exists pairs. split; [|done]. rewrite Hr; [done|].
  apply Exists_exists. exists line. split_and!; [done | done |].
  by apply chomp_spacefree_lone.
Qed.

Lemma nitpick_ignore_no_separator_fails_witness :
  let text := line_of "py:class a.b" ++ line_of "py:obj" ++ line_of "py:func c" in
  exists pairs,
    nitpick_block (world_with text) unbound
    = (bind_nitpick_ignore unbound pairs, Raise ValueError)
    /\ Forall proper_pair pairs.
Proof.
  intros text.
  apply (nitpick_ignore_no_separator_fails (world_with text) unbound text
           (line_of "py:obj")).
  - reflexivity.
  - eval_lines. apply list_elem_of_In. right. left. reflexivity.
  - reflexivity.
  - reflexivity.
  - reflexivity.
Defined.

(** C2, as stated, fails: the only line of this file has no whitespace at
    all, and parsing ends normally, the line being skipped as a comment. *)
Lemma nitpick_ignore_comment_counterexample :
  let text := py "#abc" in
  file_lines text = [text]
  /\ existsb Py.isspace text = false
  /\ nitpick_block (world_with text) unbound
     = (bind_nitpick_ignore unbound [], Ok tt).
Proof. vm_compute. repeat split. Qed.

(** C3: a blank line (empty or whitespace only) and a line starting with
    [#] contribute no pair, wherever they stand in the file: the loop body
    leaves the list as it is, and parsing gives the same list and the same
    outcome as for the file without that line. *)
Theorem nitpick_ignore_skips_blank_and_comment
    (w w' : world) (g : globals) (text text' : str)
    (before after : list str) (line : str) :
  ignore_list w text ->
  ignore_list w' text' ->
  file_lines text = before ++ line :: after ->
  file_lines text' = before ++ after ->
  whitespace line = true \/ comment line = true ->
  nitpick_line line g = (g, Ok tt)
  /\ nitpick_block w g = nitpick_block w' g.
Proof.
  intros Hw Hw' Hl Hl' Hskip. split; [by apply nitpick_line_skipped|].
  rewrite (nitpick_block_file _ _ _ Hw), (nitpick_block_file _ _ _ Hw').
  rewrite Hl, Hl'. by apply loop_skip.
Qed.

Lemma nitpick_ignore_skips_blank_and_comment_witness :
  let text := line_of "py:class a" ++ line_of "# note" ++ line_of "py:obj b" in
  let text' := line_of "py:class a" ++ line_of "py:obj b" in
  nitpick_line (line_of "# note") unbound = (unbound, Ok tt)
  /\ nitpick_block (world_with text) unbound
     = nitpick_block (world_with text') unbound.
Proof.
  intros text text'.
  apply (nitpick_ignore_skips_blank_and_comment
           (world_with text) (world_with text') unbound text text'
           [line_of "py:class a"] [line_of "py:obj b"] (line_of "# note")).
  - reflexivity.
  - reflexivity.
  - reflexivity.
  - reflexivity.
  - right. reflexivity.
Defined.



(** The target of that line keeps its inner whitespace. *)
Example nitpick_line_inner_whitespace :
  nitpick_line (line_of "py:class  typing.Union[int,  str]  ")
               (bind_nitpick_ignore unbound [])
  = (bind_nitpick_ignore unbound
       [(py "py:class", py "typing.Union[int,  str]")], Ok tt).
Proof. reflexivity. Qed.

(** C5: when the ignore-list file cannot be opened, for one because it is
    missing, the block raises the error of [open], which nothing catches,
    and [nitpick_ignore] is left bound to the empty list. *)
Theorem nitpick_ignore_open_fails (w : world) (g : globals) (e : exn) :
  open w (py "nitpick_ignore") = Raise e ->
  nitpick_block w g = (bind_nitpick_ignore g [], Raise e)
  /\ nitpick_ignore (nitpick_block w g).1 = Some []
  /\ (cwd w !! py "nitpick_ignore" = None ->
      e = FileNotFoundError (py "nitpick_ignore")).
Proof.
  intros Hopen.
  assert (Hrun : nitpick_block w g = (bind_nitpick_ignore g [], Raise e)).
  { unfold nitpick_block, bind, assign_nitpick_ignore, lift. by rewrite Hopen. }
  rewrite Hrun. split_and!; [done | done |].
  intros Hnone. unfold open in Hopen. rewrite Hnone in Hopen. congruence.
Qed.

Lemma nitpick_ignore_open_fails_witness :
  let w := {| modules := ∅; cwd := ∅ |} in
  let e := FileNotFoundError (py "nitpick_ignore") in
  nitpick_block w unbound = (bind_nitpick_ignore unbound [], Raise e)
  /\ nitpick_ignore (nitpick_block w unbound).1 = Some []
  /\ (cwd w !! py "nitpick_ignore" = None ->
      e = FileNotFoundError (py "nitpick_ignore")).
Proof.
  intros w e. apply (nitpick_ignore_open_fails w unbound e). reflexivity.
Defined.

Lemma isspace_not_hash (c : char) : Py.isspace c = true -> (c =? 35) = false.
Proof.
  intros Hc. destruct (c =? 35) eqn:E; [|done].
  apply N.eqb_eq in E. subst c. done.
Qed.

Lemma indented_hash_first_field (lead more : str) :
  whitespace lead = true ->
  exists fields,
    Py.split_whitespace 1 (lead ++ py "#" ++ more)
    = (35 :: Py.takewhile Py.nonspace more) :: fields.
Proof.
  intros Hlead. change (py "#" ++ more) with (35 :: more).
  cbn [Py.split_whitespace]. unfold Py.lstrip.
  rewrite (dropwhile_all _ _ _ Hlead).
  change (Py.dropwhile Py.isspace (35 :: more)) with (35 :: more).
  change (Py.takewhile Py.nonspace (35 :: more))
    with (35 :: Py.takewhile Py.nonspace more).
  by eexists.
Qed.

(** C9, as amended: the comment test looks at the raw line.  A line whose
    first character is whitespace and whose first non-whitespace character
    is [#] is not skipped: it is split like any other line, which appends
    a pair whose category begins with [#], or raises when the line has no
    second field.  When that [#] is followed by whitespace and then by
    more text, the pair appended is [#] with the rest of the line, trimmed
    of the whitespace at its end. *)
Theorem nitpick_line_indented_hash
    (lead more : str) (g : globals) (acc : list (str * str)) :
  lead <> [] -> whitespace lead = true ->
  let line := lead ++ py "#" ++ more in
  comment line = false
  /\ whitespace line = false
  /\ nitpick_line line (bind_nitpick_ignore g acc)
     <> (bind_nitpick_ignore g acc, Ok tt)
  /\ ((exists dtype target,
          rule_line line (dtype, target) /\ comment dtype = true
          /\ nitpick_line line (bind_nitpick_ignore g acc)
             = (bind_nitpick_ignore g (acc ++ [(dtype, target)]), Ok tt))
      \/ (lone_token line
          /\ nitpick_line line (bind_nitpick_ignore g acc)
             = (bind_nitpick_ignore g acc, Raise ValueError)))
  /\ (forall sep target trail,
        more = sep ++ target ++ trail ->
        sep <> [] -> whitespace sep = true ->
        begins_text target = true -> ends_text target = true ->
        whitespace trail = true ->
        nitpick_line line (bind_nitpick_ignore g acc)
        = (bind_nitpick_ignore g (acc ++ [(py "#", target)]), Ok tt)).
Proof.
  intros Hl Hlead line.
  assert (Hc : comment line = false).
  { subst line. destruct lead as [|c lead]; [done|]. simpl in *.
    apply andb_true_iff in Hlead as [Hc _]. by apply isspace_not_hash. }
  assert (Hw : whitespace line = false).
  { subst line. apply (token_not_whitespace lead (py "#") more); done. }
  assert (Hcases :
    (exists dtype target,
        rule_line line (dtype, target) /\ comment dtype = true
        /\ nitpick_line line (bind_nitpick_ignore g acc)
           = (bind_nitpick_ignore g (acc ++ [(dtype, target)]), Ok tt))
    \/ (lone_token line
        /\ nitpick_line line (bind_nitpick_ignore g acc)
           = (bind_nitpick_ignore g acc, Raise ValueError))).
  { destruct (line_shape line) as [Hw' | [[[dtype target] Hp] | Hlone]];
      [congruence | left | right].
    - exists dtype, target. split_and!; [done | |].
      + destruct (rule_line_split _ _ Hp) as (rest & Hs & _).
        destruct (indented_hash_first_field lead more Hlead) as (fields & Hf).
        fold line in Hf. rewrite Hf in Hs. by injection Hs as <- _.
      + by apply nitpick_line_rule.
    - split; [done|]. by apply nitpick_line_lone. }
  split_and!; [done | done | | done |].
  - destruct Hcases as [(dtype & target & _ & _ & ->) | [_ ->]]; [|done].
    intros [= Heq]. apply (f_equal (@length _)) in Heq.
    rewrite length_app in Heq. simpl in Heq. lia.
  - intros sep target trail -> Hs Hsep Hb He Ht.
    apply nitpick_line_rule; [|done]. subst line.
    by apply (RuleLine lead (py "#") sep target trail).
Qed.

Lemma nitpick_line_indented_hash_witness :
  let line := py "  " ++ py "#" ++ py " " ++ py "py:class  a.b" ++ line_of " " in
  comment line = false
  /\ nitpick_line line (bind_nitpick_ignore unbound [])
     <> (bind_nitpick_ignore unbound [], Ok tt)
  /\ nitpick_line line (bind_nitpick_ignore unbound [])
     = (bind_nitpick_ignore unbound [(py "#", py "py:class  a.b")], Ok tt).
Proof.
  intros line.
  destruct (nitpick_line_indented_hash
              (py "  ") (py " " ++ py "py:class  a.b" ++ line_of " ") unbound [])
    as (Hc & _ & Hrun & _ & Hpair); [discriminate | reflexivity |].
  split_and!; [exact Hc | exact Hrun |].
  apply (Hpair (py " ") (py "py:class  a.b") (line_of " "));
    [reflexivity | discriminate | reflexivity..].
Defined.

(** C9, as stated, fails: in these two files the only line starts with
    whitespace and its first non-whitespace character is [#].  The first
    gives the pair of [#x] and [y], not of [#] and [x y]; the second gives
    no pair at all, parsing raises. *)
Lemma nitpick_ignore_indented_hash_counterexample :
  let text := line_of " #x y" in
  let text' := line_of " #x" in
  file_lines text = [text]
  /\ nitpick_block (world_with text) unbound
     = (bind_nitpick_ignore unbound [(py "#x", py "y")], Ok tt)
  /\ (py "#x", py "y") <> (py "#", py "x y")
  /\ file_lines text' = [text']
  /\ nitpick_block (world_with text') unbound
     = (bind_nitpick_ignore unbound [], Raise ValueError).
Proof. vm_compute. repeat split. discriminate. Qed.

(** C10, as amended: a line that does not start with [#] and is made of
    one token, then whitespace, then the newline, makes parsing fail
    although it has whitespace after the token: the split drops the
    trailing whitespace and gives a single field, and unpacking it
    raises. *)
Theorem nitpick_ignore_trailing_whitespace_fails
    (w : world) (g : globals) (text tok ws : str) :
  ignore_list w text ->
  tok <> [] -> spacefree tok = true -> comment tok = false ->
  ws <> [] -> whitespace ws = true ->
  tok ++ ws ++ [Py.LF] ∈ file_lines text ->
  Py.split_whitespace 1 (tok ++ ws ++ [Py.LF]) = [tok]
  /\ exists pairs,
       nitpick_block w g = (bind_nitpick_ignore g pairs, Raise ValueError).
Proof.
  intros Hfile Htok Hfree Hc Hws Hsp Hin.
  assert (Htrail : whitespace (ws ++ [Py.LF]) = true).
  { unfold whitespace in *. by rewrite forallb_app, Hsp. }
  assert (Hlone : lone_token (tok ++ ws ++ [Py.LF])).
  { by apply (LoneToken [] tok (ws ++ [Py.LF])). }
  split.
  - pose proof (split_whitespace_fields [] tok (ws ++ [Py.LF]) []) as H.
    rewrite app_nil_r in H. apply H; auto.
  - rewrite (nitpick_block_file _ _ _ Hfile).
    destruct (loop_outcome (file_lines text) g [])
      as (pairs & r & -> & _ & _ & Hr).
    exists pairs. rewrite Hr; [done|].
    apply Exists_exists. eexists. split; [exact Hin|]. split; [|done].
    by destruct tok.
Qed.

Lemma nitpick_ignore_trailing_whitespace_fails_witness :
  let text := line_of "py:class a.b" ++ line_of "py:obj  " in
  Py.split_whitespace 1 (py "py:obj" ++ py "  " ++ [Py.LF]) = [py "py:obj"]
  /\ exists pairs,
       nitpick_block (world_with text) unbound
       = (bind_nitpick_ignore unbound pairs, Raise ValueError).
Proof.
  intros text.
  apply (nitpick_ignore_trailing_whitespace_fails
           (world_with text) unbound text (py "py:obj") (py "  ")).
  - reflexivity.
  - discriminate.
  - reflexivity.
  - reflexivity.
  - discriminate.
  - reflexivity.
  - eval_lines. apply list_elem_of_In. right. left. reflexivity.
Defined.

(** C10, as stated, fails: the only line of this file is one token, two
    spaces and the newline, and parsing ends normally, the line being
    skipped as a comment. *)
Lemma nitpick_ignore_comment_token_counterexample :
  let text := py "#abc" ++ py "  " ++ [Py.LF] in
  file_lines text = [text]
  /\ spacefree (py "#abc") = true
  /\ whitespace (py "  ") = true
  /\ nitpick_block (world_with text) unbound
     = (bind_nitpick_ignore unbound [], Ok tt).
Proof. vm_compute. repeat split. Qed.

(** ** Intersphinx mapping: the claim *)

Lemma import_cases (w : world) (name : str) :
  (exists m, import w name = Ok m /\ modules w !! name = Some m)
  \/ (import w name = Raise (ModuleNotFoundError name)
      /\ modules w !! name = None).
Proof. unfold import. destruct (modules w !! name); eauto. Qed.

Lemma from_import_version_cases (w : world) (name : str) :
  (exists v, from_import_version w name = Ok v /\ is_Some (modules w !! name))
  \/ (exists e, from_import_version w name = Raise e /\ is_import_error e = true).
Proof.
  unfold from_import_version.
  destruct (import_cases w name) as [(m & -> & Hm) | [-> _]]; [|eauto].
  destruct (version m); [left | right]; eauto.
Qed.

(** Walks down a chain of imports: either one of them raises, which ends
    the goal, or all of them are found. *)
Ltac raised_here :=
  refine (ex_intro _ _ (conj _ eq_refl)); (assumption || reflexivity).

Ltac first_failing_import w :=
  repeat match goal with
    | |- context [from_import_version w ?n] =>
        let H := fresh "Hfound" in
        destruct (from_import_version_cases w n) as [(? & -> & H) | (? & -> & ?)];
        [cbn beta iota | raised_here]
    | |- context [import w ?n] =>
        let H := fresh "Hfound" in
        destruct (import_cases w n) as [(? & -> & H) | [-> ?]];
        [cbn beta iota | raised_here]
    end.

Lemma get_intersphinx_mapping_raises (w : world) (g : globals) (name : str) :
  name ∈ versioned_libraries -> modules w !! name = None ->
  exists e, is_import_error e = true
            /\ _get_intersphinx_mapping w g = (g, Raise e).
Proof.
  intros Hin Hnone. unfold _get_intersphinx_mapping, bind, lift.
  first_failing_import w.
  assert (Hall : forall n, n ∈ versioned_libraries -> is_Some (modules w !! n)).
  { intros n Hn. unfold versioned_libraries in Hn.
    repeat (apply elem_of_cons in Hn as [-> | Hn]; [done|]).
    by apply elem_of_nil in Hn. }
  destruct (Hall _ Hin) as [m Hm]. congruence.
Qed.

Lemma workaround_imports_raises (w : world) (g : globals) (name : str) :
  name = py "pandas" \/ name = py "pint" -> modules w !! name = None ->
  exists e, is_import_error e = true
            /\ _workaround_imports_typechecking w g = (g, Raise e).
Proof.
  intros Hname Hnone. unfold _workaround_imports_typechecking, bind, lift.
  first_failing_import w.
  destruct Hname as [-> | ->]; congruence.
Qed.

(** C6: when one of asdf, matplotlib, numpy, pandas, pint and scipy cannot
    be imported, [_get_intersphinx_mapping] raises an import error and
    returns no mapping; the assignment on line 298 and the statements after
    it never run, so the globals stay as they were and no mapping, partial
    or other, is bound.  For pandas and pint the imports of
    [_workaround_imports_typechecking] raise an import error before that. *)
Theorem intersphinx_mapping_needs_libraries
    (w : world) (g : globals) (name : str) :
  name ∈ versioned_libraries ->
  modules w !! name = None ->
  (exists e,
      is_import_error e = true
      /\ _get_intersphinx_mapping w g = (g, Raise e)
      /\ intersphinx_block w g = (g, Raise e)
      /\ conf_tail w g = (g, Raise e))
  /\ intersphinx_mapping (conf_tail w g).1 = intersphinx_mapping g
  /\ (name = py "pandas" \/ name = py "pint" ->
      exists e, is_import_error e = true
                /\ _workaround_imports_typechecking w g = (g, Raise e)).
Proof.
  intros Hin Hnone.
  destruct (get_intersphinx_mapping_raises w g name Hin Hnone) as (e & He & Hrun).
  assert (Hblock : intersphinx_block w g = (g, Raise e)).
  { unfold intersphinx_block, bind. by rewrite Hrun. }
  assert (Htail : conf_tail w g = (g, Raise e)).
  { unfold conf_tail, bind. by rewrite Hblock. }
  split_and!.
  - by exists e.
  - by rewrite Htail.
  - intros Hname. by apply (workaround_imports_raises w g name).
Qed.

Lemma intersphinx_mapping_needs_libraries_witness :
  let installed := {| version := Some (py "1.26.4") |} in
  let w := {| modules := {[ py "asdf" := installed; py "matplotlib" := installed;
                            py "numpy" := installed; py "pint" := installed;
                            py "scipy" := installed ]};
              cwd := ∅ |} in
  (exists e,
      is_import_error e = true
      /\ _get_intersphinx_mapping w unbound = (unbound, Raise e)
      /\ intersphinx_block w unbound = (unbound, Raise e)
      /\ conf_tail w unbound = (unbound, Raise e))
  /\ intersphinx_mapping (conf_tail w unbound).1 = intersphinx_mapping unbound
  /\ (py "pandas" = py "pandas" \/ py "pandas" = py "pint" ->
      exists e, is_import_error e = true
                /\ _workaround_imports_typechecking w unbound = (unbound, Raise e)).
Proof.
  intros installed w.
  apply (intersphinx_mapping_needs_libraries w unbound (py "pandas")).
  - apply list_elem_of_In. right. right. right. left. reflexivity.
  - reflexivity.
Defined.

(** With the six libraries in place the mapping is built. *)
Example intersphinx_mapping_built :
  let installed := {| version := Some (py "1.26.4") |} in
  let w := {| modules := {[ py "asdf" := installed; py "matplotlib" := installed;
                            py "numpy" := installed; py "pandas" := installed;
                            py "pint" := installed; py "scipy" := installed ]};
              cwd := ∅ |} in
  exists m, intersphinx_block w unbound
            = ({| intersphinx_mapping := Some m; nitpick_ignore := None |}, Ok tt)
            /\ length m = 12%nat
            /\ m !! 1%nat = Some (py "numpy", (py "https://numpy.org/doc/1.26", None)).
Proof. eexists. split_and!; reflexivity. Qed.

(** ** Tutorial staging *)

Section StagingProperties.
Context {data : Type}.
Implicit Types (tutorials tutorials_dir dst : directory data) (name : str).

Lemma glob_elem tutorials (pattern name : str) :
  name ∈ glob tutorials pattern
  <-> is_Some (tutorials !! name) /\ fnmatch name pattern = true.
Proof.
  unfold glob. rewrite list_elem_of_In, filter_In, in_map_iff. split.
  - intros [([n e] & <- & Hin%list_elem_of_In%elem_of_map_to_list) Hm].
    split; [by exists e | done].
  - intros [[e He] Hm]. split; [|done].
    exists (name, e). split; [done|].
    by apply list_elem_of_In, elem_of_map_to_list.
Qed.

(** The names collected by the first loop. *)
Lemma tutorial_files_elem tutorials name :
  name ∈ fold_left (fun files ext => files ++ glob tutorials ext) _exts []
  <-> is_Some (tutorials !! name) /\ tutorial_name name = true.
Proof.
  unfold _exts, tutorial_name. cbn [fold_left app].
  rewrite elem_of_app, !glob_elem, orb_true_iff. tauto.
Qed.

(** The second loop, over any list of names of source files. *)
Lemma copy_loop tutorials (files : list str) : forall dst,
  (forall name, name ∈ files -> is_Some (tutorials !! name)) ->
  exists dst',
    for_ files (fun f => shutil_copy tutorials f) dst = (dst', Ok tt)
    /\ forall name,
         dst' !! name
         = if decide (name ∈ files) then tutorials !! name else dst !! name.
Proof.
  induction files as [|f files IH]; intros dst Hfiles.
  - exists dst. split; [done|]. intros name.
    destruct (decide (name ∈ [])) as [H%elem_of_nil|]; done.
  - destruct (Hfiles f) as [content Hf]; [left|].
    destruct (IH (<[f := content]> dst)) as (dst' & Hrun & Hdst').
    { intros name Hin. apply Hfiles. by right. }
    exists dst'. split.
    + rewrite for_cons. unfold shutil_copy at 1. by rewrite Hf.
    + intros name. rewrite Hdst'.
      destruct (decide (name ∈ files)) as [Hin|Hnin].
      * rewrite decide_True; [done | by right].
      * destruct (decide (f = name)) as [->|Hne].
        -- rewrite lookup_insert_eq, decide_True; [done | left].
        -- rewrite lookup_insert_ne by done.
           rewrite decide_False; [done|].
           intros [?|?]%elem_of_cons; congruence.
Qed.

(** What a run of the staging leaves in the destination. *)
Lemma copy_tut_files_result tutorials tutorials_dir :
  exists dst',
    _copy_tut_files tutorials tutorials_dir = (dst', Ok tt)
    /\ forall name,
         dst' !! name
         = if tutorial_name name && bool_decide (is_Some (tutorials !! name))
           then tutorials !! name else tutorials_dir !! name.
Proof.
  unfold _copy_tut_files.
  destruct (copy_loop tutorials
              (fold_left (fun files ext => files ++ glob tutorials ext) _exts [])
              tutorials_dir) as (dst' & Hrun & Hdst').
  - by intros name [Hsome _]%tutorial_files_elem.
  - exists dst'. split; [done|]. intros name. rewrite Hdst'.
    destruct (decide _) as [[Hsome ->]%tutorial_files_elem | Hn].
    + by rewrite bool_decide_eq_true_2.
    + destruct (tutorial_name name) eqn:Hname; [|done].
      rewrite bool_decide_eq_false_2; [done|].
      intros Hsome. apply Hn, tutorial_files_elem. done.
Qed.

End StagingProperties.

Section EntriesProperties.
Context {data : Type}.
Implicit Types (tutorials tutorials_dir dst : gmap str (Entries.node data)).
Implicit Types (name : str).

Lemma entries_glob_elem tutorials (pattern name : str) :
  name ∈ Entries.glob tutorials pattern
  <-> is_Some (tutorials !! name) /\ fnmatch name pattern = true.
Proof.
  unfold Entries.glob. rewrite list_elem_of_In, filter_In, in_map_iff. split.
  - intros [([n e] & <- & Hin%list_elem_of_In%elem_of_map_to_list) Hm].
    split; [by exists e | done].
  - intros [[e He] Hm]. split; [|done].
    exists (name, e). split; [done|].
    by apply list_elem_of_In, elem_of_map_to_list.
Qed.

Lemma entries_tutorial_files_elem tutorials name :
  name ∈ fold_left (fun files ext => files ++ Entries.glob tutorials ext) _exts []
  <-> is_Some (tutorials !! name) /\ has_extension name = true.
Proof.
  unfold _exts, has_extension. cbn [fold_left app].
  change (py "*.ipynb") with (py "*" ++ py ".ipynb").
  change (py "*.py") with (py "*" ++ py ".py").
  rewrite elem_of_app, !entries_glob_elem, !fnmatch_star, orb_true_iff by done.
  tauto.
Qed.

Lemma entries_copy_loop tutorials (files : list str) : forall dst,
  (forall name, name ∈ files ->
     (exists content, tutorials !! name = Some (Entries.File content))
     /\ dst !! name <> Some Entries.Directory) ->
  exists dst',
    for_ files (fun f => Entries.shutil_copy tutorials f) dst = (dst', Ok tt)
    /\ forall name,
         dst' !! name
         = if decide (name ∈ files) then tutorials !! name else dst !! name.
Proof.
  induction files as [|f files IH]; intros dst Hfiles.
  - exists dst. split; [done|]. intros name.
    destruct (decide (name ∈ [])) as [H%elem_of_nil|]; done.
  - destruct (Hfiles f) as [[content Hf] Hdst]; [left|].
    destruct (IH (<[f := Entries.File content]> dst)) as (dst' & Hrun & Hdst').
    { intros name Hin. destruct (Hfiles name) as [Hsrc Hd]; [by right|].
      split; [done|]. destruct (decide (f = name)) as [->|Hne].
      - by rewrite lookup_insert_eq.
      - by rewrite lookup_insert_ne. }
    exists dst'. split.
    + rewrite for_cons. unfold Entries.shutil_copy at 1. rewrite Hf.
      destruct (dst !! f) as [[]|]; done.
    + intros name. rewrite Hdst'.
      destruct (decide (name ∈ files)) as [Hin|Hnin].
      * rewrite decide_True; [done | by right].
      * destruct (decide (f = name)) as [->|Hne].
        -- rewrite lookup_insert_eq, decide_True; [done | left].
        -- rewrite lookup_insert_ne by done.
           rewrite decide_False; [done|].
           intros [?|?]%elem_of_cons; congruence.
Qed.

Lemma entries_copy_tut_files_result tutorials tutorials_dir :
  regular_files tutorials tutorials_dir ->
  exists dst',
    Entries._copy_tut_files tutorials tutorials_dir = (dst', Ok tt)
    /\ forall name,
         dst' !! name
         = if has_extension name && bool_decide (is_Some (tutorials !! name))
           then tutorials !! name else tutorials_dir !! name.
Proof.
  intros Hreg. unfold Entries._copy_tut_files.
  destruct (entries_copy_loop tutorials
              (fold_left (fun files ext => files ++ Entries.glob tutorials ext)
                         _exts [])
              tutorials_dir) as (dst' & Hrun & Hdst').
  - intros name [Hsome Hname]%entries_tutorial_files_elem.
    destruct (Hreg name Hname Hsome) as [Hsrc Hdst]. split; [|done].
    destruct Hsome as [[content|] H]; [by exists content | done].
  - exists dst'. split; [done|]. intros name. rewrite Hdst'.
    destruct (decide _) as [[Hsome ->]%entries_tutorial_files_elem | Hn].
    + by rewrite bool_decide_eq_true_2.
    + destruct (has_extension name) eqn:Hname; [|done].
      rewrite bool_decide_eq_false_2; [done|].
      intros Hsome. apply Hn, entries_tutorial_files_elem. done.
Qed.

Lemma only_files_lookup dst name :
  only_files dst = true -> dst !! name <> Some Entries.Directory.
Proof.
  unfold only_files. rewrite forallb_forall. intros Hall Hd.
  specialize (Hall (name, Entries.Directory)). simpl in Hall.
  assert (true = false); [|done]. symmetry. apply Hall.
  by apply list_elem_of_In, elem_of_map_to_list.
Qed.

End EntriesProperties.

(** C7, as amended: for every source directory in which the entries with
    a name ending in [.ipynb] or [.py] are regular files, and every
    destination with no directory under the name of such an entry, staging
    ends normally and has copied into the destination exactly those files:
    each is in the destination afterwards as it is in the source, an entry
    with another name is not copied, and every destination entry under a
    name that was not copied is as it was. *)
Theorem copy_tut_files_copies_regular_files
    {data : Type} (tutorials tutorials_dir : gmap str (Entries.node data)) :
  regular_files tutorials tutorials_dir ->
  exists dst',
    Entries._copy_tut_files tutorials tutorials_dir = (dst', Ok tt)
    /\ (forall name content,
          has_extension name = true ->
          tutorials !! name = Some (Entries.File content) ->
          dst' !! name = Some (Entries.File content))
    /\ (forall name, has_extension name = false ->
          dst' !! name = tutorials_dir !! name)
    /\ (forall name, tutorials !! name = None ->
          dst' !! name = tutorials_dir !! name).
Proof.
  intros Hreg.
  destruct (entries_copy_tut_files_result tutorials tutorials_dir Hreg)
    as (dst' & Hrun & Hdst').
  exists dst'. split_and!; [done | | |]; intros name; rewrite Hdst'.
  - intros content -> Hsome. by rewrite bool_decide_eq_true_2.
  - by intros ->.
  - intros ->. rewrite bool_decide_eq_false_2, andb_false_r; [done|].
    by intros [? ?].
Qed.

Lemma copy_tut_files_copies_regular_files_witness :
  let tutorials : gmap str (Entries.node nat) :=
    {[ py "a.ipynb" := Entries.File 1%nat; py "b.py" := Entries.File 2%nat;
       py "c.txt" := Entries.File 3%nat; py "data" := Entries.Directory ]} in
  let tutorials_dir : gmap str (Entries.node nat) :=
    {[ py "b.py" := Entries.File 0%nat; py "index.rst" := Entries.File 9%nat;
       py "_static" := Entries.Directory ]} in
  exists dst',
    Entries._copy_tut_files tutorials tutorials_dir = (dst', Ok tt)
    /\ (forall name content,
          has_extension name = true ->
          tutorials !! name = Some (Entries.File content) ->
          dst' !! name = Some (Entries.File content))
    /\ (forall name, has_extension name = false ->
          dst' !! name = tutorials_dir !! name)
    /\ (forall name, tutorials !! name = None ->
          dst' !! name = tutorials_dir !! name).
Proof.
  intros tutorials tutorials_dir.
  apply (copy_tut_files_copies_regular_files tutorials tutorials_dir).
  intros name Hext [x Hx]. unfold tutorials in Hx |- *.
  apply lookup_insert_Some in Hx as [[<- _] | [_ Hx]]; [split; by vm_compute|].
  apply lookup_insert_Some in Hx as [[<- _] | [_ Hx]]; [split; by vm_compute|].
  apply lookup_insert_Some in Hx as [[<- _] | [_ Hx]]; [split; by vm_compute|].
  apply lookup_singleton_Some in Hx as [<- _]. by vm_compute in Hext.
Defined.

(** The run of that witness: [a.ipynb] is added, [b.py] replaced, [c.txt]
    and the sub-directory [data] are not staged, the rest stays. *)
Example copy_tut_files_entries_abc :
  let tutorials : gmap str (Entries.node nat) :=
    {[ py "a.ipynb" := Entries.File 1%nat; py "b.py" := Entries.File 2%nat;
       py "c.txt" := Entries.File 3%nat; py "data" := Entries.Directory ]} in
  let tutorials_dir : gmap str (Entries.node nat) :=
    {[ py "b.py" := Entries.File 0%nat; py "index.rst" := Entries.File 9%nat;
       py "_static" := Entries.Directory ]} in
  Entries._copy_tut_files tutorials tutorials_dir
  = ({[ py "a.ipynb" := Entries.File 1%nat; py "b.py" := Entries.File 2%nat;
        py "index.rst" := Entries.File 9%nat; py "_static" := Entries.Directory ]},
     Ok tt).
Proof. vm_compute. reflexivity. Qed.

(** C7, as stated, fails: this source directory holds the file [a.py] and
    a sub-directory named [d.ipynb].  Both names are collected, the
    sub-directory first since [*.ipynb] is the first pattern, and copying
    it raises: staging ends with that error and [a.py], a file whose name
    matches, is not in the destination. *)
Lemma copy_tut_files_subdirectory_counterexample :
  let tutorials : gmap str (Entries.node nat) :=
    {[ py "d.ipynb" := Entries.Directory; py "a.py" := Entries.File 1%nat ]} in
  has_extension (py "a.py") = true
  /\ tutorials !! py "a.py" = Some (Entries.File 1%nat)
  /\ Entries._copy_tut_files tutorials ∅
     = (∅, Raise (IsADirectoryError (py "d.ipynb")))
  /\ (Entries._copy_tut_files tutorials ∅).1 !! py "a.py" = None.
Proof. vm_compute. repeat split. Qed.

(** On directories of regular files the staging with entries is the
    staging of files. *)
Lemma copy_tut_files_as_entries {data : Type} (tutorials tutorials_dir : directory data) :
  Entries._copy_tut_files (as_entries tutorials) (as_entries tutorials_dir)
  = (as_entries (_copy_tut_files tutorials tutorials_dir).1, Ok tt)
  /\ (_copy_tut_files tutorials tutorials_dir).2 = Ok tt.
Proof.
  destruct (copy_tut_files_result tutorials tutorials_dir) as (dst' & -> & Hdst').
  destruct (entries_copy_tut_files_result (as_entries tutorials)
              (as_entries tutorials_dir)) as (dst'' & -> & Hdst'').
  { intros name _ _. unfold as_entries. rewrite !lookup_fmap.
    split; [by destruct (tutorials !! name) | by destruct (tutorials_dir !! name)]. }
  split; [|done]. cbn [fst]. f_equal. apply map_eq. intros name.
  unfold as_entries in *. rewrite Hdst'', !lookup_fmap, Hdst'.
  rewrite tutorial_name_extension. fold (has_extension name).
  assert (Hd : bool_decide (is_Some (Entries.File <$> tutorials !! name))
               = bool_decide (is_Some (tutorials !! name))).
  { apply bool_decide_ext. by rewrite fmap_is_Some. }
  rewrite Hd. by destruct (_ && _).
Qed.

(** The directory of the specification: [a.ipynb] and [b.py] are staged,
    [c.txt] is not, and what else the destination holds stays. *)
Example copy_tut_files_abc :
  let tutorials : directory nat :=
    {[ py "a.ipynb" := 1%nat; py "b.py" := 2%nat; py "c.txt" := 3%nat ]} in
  let tutorials_dir : directory nat :=
    {[ py "b.py" := 0%nat; py "index.rst" := 9%nat ]} in
  _copy_tut_files tutorials tutorials_dir
  = ({[ py "a.ipynb" := 1%nat; py "b.py" := 2%nat; py "index.rst" := 9%nat ]},
     Ok tt).
Proof. vm_compute. reflexivity. Qed.



(** * Further properties *)

(** ** The ignore list as a whole *)

Lemma rule_line_not_lone (line : str) (p : str * str) :
  rule_line line p -> lone_token line -> False.
Proof.
  intros (rest & Hs & _)%rule_line_split (tok & Ht)%lone_token_split.
  congruence.
Qed.

(** How far the loop gets: it handles the lines of [done], one pair for
    each that is not skipped, and either reaches the end or stops at the
    first lone token that is not a comment. *)
Lemma loop_trace (lines : list str) :
  exists done rest pairs r,
    lines = done ++ rest
    /\ Forall2 rule_line (rule_lines done) pairs
    /\ ((rest = [] /\ r = Ok tt)
        \/ (exists bad after, rest = bad :: after /\ comment bad = false
              /\ lone_token bad /\ r = Raise ValueError))
    /\ forall g acc, for_ lines nitpick_line (bind_nitpick_ignore g acc)
                     = (bind_nitpick_ignore g (acc ++ pairs), r).
Proof.
  induction lines as [|line lines (done & rest & pairs & r & Hl & Hp & Hr & Hrun)].
  - exists [], [], [], (Ok tt). split_and!; [done | constructor | by left |].
    intros g acc. by rewrite app_nil_r.
  - destruct (skipped line) eqn:Hskip.
    + exists (line :: done), rest, pairs, r.
      split_and!; [by rewrite Hl | | done |].
      * unfold rule_lines. simpl. by rewrite Hskip.
      * intros g acc. rewrite for_cons, nitpick_line_skipped; [apply Hrun|].
        by apply orb_true_iff.
    + apply orb_false_iff in Hskip as Hwc. destruct Hwc as [Hw Hc].
      destruct (line_shape line) as [Hw' | [[p Hrule] | Hlone]]; [congruence | |].
      * exists (line :: done), rest, (p :: pairs), r.
        split_and!; [by rewrite Hl | | done |].
        -- unfold rule_lines. simpl. rewrite Hskip. by constructor.
        -- intros g acc.
           rewrite for_cons, (nitpick_line_rule _ _ _ _ Hrule Hc), Hrun.
           by rewrite <- app_assoc.
      * exists [], (line :: lines), [], (Raise ValueError).
        split_and!; [done | constructor | right; by exists line, lines |].
        intros g acc. rewrite for_cons, nitpick_line_lone by done.
        by rewrite app_nil_r.
Qed.

(** A line the loop can take: skipped, or a rule line. *)
Lemma loop_accepts (lines : list str) :
  Forall (fun l => skipped l = true \/ exists p, rule_line l p) lines ->
  exists pairs,
    Forall2 rule_line (rule_lines lines) pairs
    /\ forall g acc, for_ lines nitpick_line (bind_nitpick_ignore g acc)
                     = (bind_nitpick_ignore g (acc ++ pairs), Ok tt).
Proof.
  intros Hok.
  destruct (loop_trace lines) as (done & rest & pairs & r & Hl & Hp & Hr & Hrun).
  destruct Hr as [[-> ->] | (bad & after & -> & Hc & Hlone & _)].
  - rewrite app_nil_r in Hl. subst done. by exists pairs.
  - exfalso. rewrite Hl in Hok.
    apply Forall_app in Hok as [_ Hbad]. inversion Hbad as [|? ? [Hs | [p Hp']] _].
    + apply orb_true_iff in Hs as [Hw | Hc']; [|congruence].
      by rewrite (lone_token_not_blank _ Hlone) in Hw.
    + by eapply rule_line_not_lone.
Qed.

(** Files with comments and blank lines among the rules: when every line is
    blank, starts with [#] or is a rule line, parsing ends normally and the
    list holds, in the order of the file, the pair of each line that is not
    skipped, and nothing else. *)
Theorem nitpick_ignore_pairs_of_rule_lines
    (w : world) (g : globals) (text : str) :
  ignore_list w text ->
  Forall (fun l => skipped l = true \/ exists p, rule_line l p) (file_lines text) ->
  exists pairs,
    nitpick_block w g = (bind_nitpick_ignore g pairs, Ok tt)
    /\ Forall2 rule_line (rule_lines (file_lines text)) pairs.
Proof.
  intros Hfile Hok. destruct (loop_accepts _ Hok) as (pairs & Hp & Hrun).
  exists pairs. by rewrite (nitpick_block_file _ _ _ Hfile), Hrun.
Qed.

Lemma nitpick_ignore_pairs_of_rule_lines_witness :
  let text := line_of "# ignored" ++ line_of "" ++ line_of "py:class a.B"
              ++ line_of "   " ++ py "py:obj c d" in
  exists pairs,
    nitpick_block (world_with text) unbound
    = (bind_nitpick_ignore unbound pairs, Ok tt)
    /\ Forall2 rule_line (rule_lines (file_lines text)) pairs.
Proof.
  intros text.
  apply (nitpick_ignore_pairs_of_rule_lines (world_with text) unbound text).
  - reflexivity.
  - eval_lines. repeat apply List.Forall_cons; [| | | | | apply List.Forall_nil].
    + left. reflexivity.
    + left. reflexivity.
    + right. exists (py "py:class", py "a.B").
      rule_line_parts (@nil char) (py "py:class") (py " ") (py "a.B") (line_of "").
    + left. reflexivity.
    + right. exists (py "py:obj", py "c d").
      rule_line_parts (@nil char) (py "py:obj") (py " ") (py "c d") (@nil char).
Defined.

(** Parsing stops at the first lone token that is not a comment: the list
    then holds the pairs of the lines before it, and the lines after it
    play no role. *)
Theorem nitpick_ignore_stops_at_first_lone_token
    (w : world) (g : globals) (text : str)
    (before after : list str) (bad : str) :
  ignore_list w text ->
  file_lines text = before ++ bad :: after ->
  Forall (fun l => skipped l = true \/ exists p, rule_line l p) before ->
  comment bad = false -> lone_token bad ->
  exists pairs,
    nitpick_block w g = (bind_nitpick_ignore g pairs, Raise ValueError)
    /\ Forall2 rule_line (rule_lines before) pairs.
Proof.
  intros Hfile Hlines Hbefore Hc Hlone.
  destruct (loop_accepts _ Hbefore) as (pairs & Hp & Hrun).
  exists pairs. split; [|done].
  rewrite (nitpick_block_file _ _ _ Hfile), Hlines. clear Hlines Hbefore Hp.
  assert (Hgen : forall acc,
    for_ (before ++ bad :: after) nitpick_line (bind_nitpick_ignore g acc)
    = match for_ before nitpick_line (bind_nitpick_ignore g acc) with
      | (g', Ok _) => for_ (bad :: after) nitpick_line g'
      | (g', Raise e) => (g', Raise e)
      end).
  { clear Hrun. generalize (bind_nitpick_ignore g). intros start acc.
    generalize (start acc). clear start acc.
    induction before as [|l before IH]; intros g0; [done|].
    simpl app. rewrite !for_cons.
    destruct (nitpick_line l g0) as [g' [[]|e]]; [apply IH | done]. }
  rewrite Hgen, Hrun, for_cons, nitpick_line_lone by done. done.
Qed.

Lemma nitpick_ignore_stops_at_first_lone_token_witness :
  let text := line_of "py:class a.B" ++ line_of "py:obj" ++ line_of "py:func c" in
  exists pairs,
    nitpick_block (world_with text) unbound
    = (bind_nitpick_ignore unbound pairs, Raise ValueError)
    /\ Forall2 rule_line (rule_lines [line_of "py:class a.B"]) pairs.
Proof.
  intros text.
  apply (nitpick_ignore_stops_at_first_lone_token
           (world_with text) unbound text
           [line_of "py:class a.B"] [line_of "py:func c"] (line_of "py:obj")).
  - reflexivity.
  - reflexivity.
  - apply List.Forall_cons; [|apply List.Forall_nil].
    right. exists (py "py:class", py "a.B").
    rule_line_parts (@nil char) (py "py:class") (py " ") (py "a.B") (line_of "").
  - reflexivity.
  - exact (LoneToken [] (py "py:obj") (line_of "")
             eq_refl ltac:(discriminate) eq_refl eq_refl).
Defined.

Lemma rule_lines_accepted (lines : list str) (pairs : list (str * str)) :
  Forall2 rule_line (rule_lines lines) pairs ->
  Forall (fun l => skipped l = true \/ exists p, rule_line l p) lines.
Proof.
  revert pairs. induction lines as [|l lines IH]; intros pairs; [constructor|].
  unfold rule_lines. simpl. destruct (skipped l) eqn:Hs; simpl.
  - intros H. constructor; [by left | by eapply IH].
  - intros H. inversion H as [|? p ? ps Hp Hps]; subst.
    constructor; [right; by exists p | by eapply IH].
Qed.

(** Parsing ends normally exactly when every line of the file is blank,
    starts with [#] or is a rule line. *)
Theorem nitpick_ignore_succeeds_iff (w : world) (g : globals) (text : str) :
  ignore_list w text ->
  (nitpick_block w g).2 = Ok tt
  <-> Forall (fun l => skipped l = true \/ exists p, rule_line l p)
             (file_lines text).
Proof.
  intros Hfile. rewrite (nitpick_block_file _ _ _ Hfile). split.
  - destruct (loop_trace (file_lines text))
      as (done & rest & pairs & r & Hl & Hp & Hr & Hrun).
    rewrite Hrun. simpl.
    destruct Hr as [[-> ->] | (bad & after & _ & _ & _ & ->)]; [|done].
    intros _. rewrite Hl, app_nil_r. by eapply rule_lines_accepted.
  - intros Hok. destruct (loop_accepts _ Hok) as (pairs & _ & Hrun).
    by rewrite Hrun.
Qed.

Lemma nitpick_ignore_succeeds_iff_witness :
  let text := line_of "# only a comment" in
  (nitpick_block (world_with text) unbound).2 = Ok tt
  <-> Forall (fun l => skipped l = true \/ exists p, rule_line l p)
             (file_lines text).
Proof.
  intros text.
  apply (nitpick_ignore_succeeds_iff (world_with text) unbound text).
  reflexivity.
Defined.

Lemma nitpick_block_result (w : world) (g : globals) :
  exists pairs r,
    nitpick_block w g = (bind_nitpick_ignore g pairs, r)
    /\ (r = Ok tt \/ r = Raise ValueError
        \/ r = Raise (FileNotFoundError (py "nitpick_ignore"))).
Proof.
  destruct (cwd w !! py "nitpick_ignore") as [text|] eqn:Hfile.
  - destruct (loop_outcome (file_lines text) g []) as (pairs & r & Hrun & _ & Hr & _).
    exists pairs, r. rewrite (nitpick_block_file _ _ _ Hfile), Hrun.
    split; [done | tauto].
  - exists [], (Raise (FileNotFoundError (py "nitpick_ignore"))).
    split; [|auto].
    unfold nitpick_block, bind, assign_nitpick_ignore, lift, open.
    by rewrite Hfile.
Qed.

(** Once the file is there and read as text, the block ends normally or
    with the [ValueError] of the unpacking, and with nothing else; it
    leaves [intersphinx_mapping] alone, and [nitpick_ignore] bound to a
    list of proper pairs, never longer than the file has lines. *)
Theorem nitpick_block_outcomes (w : world) (g : globals) (text : str) :
  ignore_list w text ->
  exists pairs r,
    nitpick_block w g = (bind_nitpick_ignore g pairs, r)
    /\ intersphinx_mapping (nitpick_block w g).1 = intersphinx_mapping g
    /\ Forall proper_pair pairs
    /\ (r = Ok tt \/ r = Raise ValueError)
    /\ (length pairs <= length (file_lines text))%nat.
Proof.
  intros Hfile.
  destruct (loop_trace (file_lines text))
    as (done & rest & pairs & r & Hl & Hp & Hr & Hrun).
  exists pairs, r. rewrite (nitpick_block_file _ _ _ Hfile), Hrun.
  split_and!; [done | done | | |].
  - clear -Hp. induction Hp; constructor; [by eapply rule_line_proper | done].
  - destruct Hr as [[_ ->] | (? & ? & _ & _ & _ & ->)]; auto.
  - rewrite <- (Forall2_length _ _ _ Hp), Hl, length_app.
    unfold rule_lines.
    pose proof (filter_length_le (fun line => negb (skipped line)) done).
    lia.
Qed.

Lemma nitpick_block_outcomes_witness :
  let text := line_of "# rules" ++ line_of "py:class a.B" ++ line_of "py:obj" in
  exists pairs r,
    nitpick_block (world_with text) unbound = (bind_nitpick_ignore unbound pairs, r)
    /\ intersphinx_mapping (nitpick_block (world_with text) unbound).1
       = intersphinx_mapping unbound
    /\ Forall proper_pair pairs
    /\ (r = Ok tt \/ r = Raise ValueError)
    /\ (length pairs <= length (file_lines text))%nat.
Proof.
  intros text.
  apply (nitpick_block_outcomes (world_with text) unbound text).
  reflexivity.
Defined.

(** Running the block again changes nothing: the list is rebuilt from the
    file each time, not added to. *)
Theorem nitpick_block_twice (w : world) (g : globals) :
  (nitpick_block w ;; nitpick_block w) g = nitpick_block w g.
Proof.
  destruct (nitpick_block_result w g) as (pairs & r & Hrun & _).
  destruct (nitpick_block_result w (bind_nitpick_ignore g pairs))
    as (pairs' & r' & Hrun' & _).
  unfold bind at 1. rewrite Hrun. destruct r as [[]|e]; [|done].
  rewrite Hrun'.
  assert (Hsame : nitpick_block w (bind_nitpick_ignore g pairs)
                  = nitpick_block w g).
  { unfold nitpick_block, bind, assign_nitpick_ignore. done. }
  rewrite Hsame, Hrun in Hrun'. by rewrite Hrun'.
Qed.

(** ** Line endings *)

(** Text without carriage returns is read as it is. *)
Lemma universal_newlines_plain (s : str) :
  Forall (fun c => c <> Py.CR) s -> Py.universal_newlines s = s.
Proof.
  induction 1 as [|c s Hc _ IH]; simpl; [done|].
  apply N.eqb_neq in Hc. by rewrite Hc, IH.
Qed.

(** What is read has no carriage return left. *)
Lemma universal_newlines_no_cr (s : str) :
  Forall (fun c => c <> Py.CR) (Py.universal_newlines s).
Proof.
  assert (H : forall n s, (length s <= n)%nat ->
            Forall (fun c => c <> Py.CR) (Py.universal_newlines s)).
  { clear s. induction n as [|n IH]; intros [|c s] Hn; simpl in *;
      try constructor; try lia.
    - destruct (c =? Py.CR) eqn:Ec.
      + constructor; [done|]. destruct s as [|d s]; [constructor|].
        simpl in Hn. destruct (d =? Py.LF); apply IH; simpl; lia.
      + constructor; [by apply N.eqb_neq | apply IH; lia]. }
  by apply (H (length s)).
Qed.

Lemma universal_newlines_cr (d : char) (s : str) :
  Py.universal_newlines (Py.CR :: d :: s)
  = Py.LF :: (if d =? Py.LF then Py.universal_newlines s
              else Py.universal_newlines (d :: s)).
Proof. reflexivity. Qed.

Lemma universal_newlines_other (c : char) (s : str) :
  (c =? Py.CR) = false ->
  Py.universal_newlines (c :: s) = c :: Py.universal_newlines s.
Proof. intros Hc. simpl. by rewrite Hc. Qed.

Lemma universal_newlines_body (b s : str) :
  Forall (fun c => c <> Py.CR /\ c <> Py.LF) b ->
  Py.universal_newlines (b ++ s) = b ++ Py.universal_newlines s.
Proof.
  induction 1 as [|c b [Hc _] _ IH]; [done|].
  simpl app. rewrite universal_newlines_other by by apply N.eqb_neq.
  by rewrite IH.
Qed.

Lemma universal_newlines_lone_cr (s : str) :
  Forall (fun c => c <> Py.LF) s ->
  Py.universal_newlines (Py.CR :: s) = Py.LF :: Py.universal_newlines s.
Proof.
  intros Hs. destruct s as [|d s]; [done|].
  rewrite universal_newlines_cr. inversion Hs as [|? ? Hd _]; subst.
  apply N.eqb_neq in Hd. by rewrite Hd.
Qed.

(** A text whose lines end with [\r\n], or all with a lone [\r], is read as
    the text whose lines end with [\n]. *)
Lemma universal_newlines_endings (bodies : list str) (ending : str) :
  Forall (Forall (fun c => c <> Py.CR /\ c <> Py.LF)) bodies ->
  ending = [Py.CR; Py.LF] \/ ending = [Py.CR] ->
  Py.universal_newlines (concat (map (fun b => b ++ ending) bodies))
  = concat (map (fun b => b ++ [Py.LF]) bodies).
Proof.
  intros Hbodies Hending.
  induction Hbodies as [|b bodies Hb Hbodies IH]; [done|].
  cbn [map concat]. rewrite <- !app_assoc, universal_newlines_body by done.
  f_equal. destruct Hending as [-> | ->].
  - cbn [app]. rewrite universal_newlines_cr. cbn. by rewrite IH.
  - cbn [app]. rewrite universal_newlines_lone_cr; [by rewrite IH|].
    clear IH Hb. induction Hbodies as [|b' bodies' Hb' _ IH']; [constructor|].
    cbn [map concat]. rewrite <- app_assoc. apply Forall_app. split.
    + eapply Forall_impl; [exact Hb'|]. by intros c [_ ?].
    + by constructor.
Qed.

(** Line endings do not matter: a file whose lines end with [\r\n]
    (Windows), or all with a lone [\r] (old Mac), gives the same list and
    the same outcome as the file with the same lines ending with [\n]. *)
Theorem nitpick_ignore_line_endings
    (w w' : world) (g : globals) (bodies : list str) (ending : str) :
  Forall (Forall (fun c => c <> Py.CR /\ c <> Py.LF)) bodies ->
  ending = [Py.CR; Py.LF] \/ ending = [Py.CR] ->
  ignore_list w (concat (map (fun b => b ++ ending) bodies)) ->
  ignore_list w' (concat (map (fun b => b ++ [Py.LF]) bodies)) ->
  nitpick_block w g = nitpick_block w' g.
Proof.
  intros Hbodies Hending Hw Hw'.
  rewrite (nitpick_block_file _ _ _ Hw), (nitpick_block_file _ _ _ Hw').
  unfold file_lines. rewrite (universal_newlines_endings _ _ Hbodies Hending).
  rewrite (universal_newlines_plain (concat (map (fun b => b ++ [Py.LF]) bodies)));
    [done|].
  clear -Hbodies. induction Hbodies as [|b bodies Hb _ IH]; [constructor|].
  cbn [map concat]. rewrite <- app_assoc. apply Forall_app. split.
  - eapply Forall_impl; [exact Hb|]. by intros c [? _].
  - by constructor.
Qed.

Lemma nitpick_ignore_line_endings_witness :
  let bodies := [py "py:class a.B"; py "py:obj c d"] in
  nitpick_block (world_with (concat (map (fun b => b ++ [Py.CR]) bodies))) unbound
  = nitpick_block (world_with (concat (map (fun b => b ++ [Py.LF]) bodies))) unbound.
Proof.
  intros bodies.
  apply (nitpick_ignore_line_endings
           (world_with (concat (map (fun b => b ++ [Py.CR]) bodies)))
           (world_with (concat (map (fun b => b ++ [Py.LF]) bodies)))
           unbound bodies [Py.CR]).
  - apply (bool_decide_unpack _). by vm_compute.
  - by right.
  - reflexivity.
  - reflexivity.
Defined.

(** With lone carriage returns the two rules of that witness are read as
    two lines. *)
Example nitpick_ignore_old_mac :
  nitpick_block
    (world_with (py "py:class a.B" ++ [Py.CR] ++ py "py:obj c d" ++ [Py.CR]))
    unbound
  = (bind_nitpick_ignore unbound
       [(py "py:class", py "a.B"); (py "py:obj", py "c d")], Ok tt).
Proof. reflexivity. Qed.

Lemma iter_lines_newline (t : str) :
  Py.iter_lines (t ++ [Py.LF]) = close_last (Py.iter_lines t).
Proof.
  induction t as [|c t IH]; [done|].
  simpl app. cbn [Py.iter_lines]. rewrite IH.
  destruct (c =? Py.LF) eqn:Ec.
  - destruct (Py.iter_lines t) as [|l ls]; [|done].
    apply N.eqb_eq in Ec. by subst c.
  - destruct (Py.iter_lines t) as [|l [|l2 ls]]; simpl.
    + by rewrite Ec.
    + destruct l as [|d l]; simpl; [by rewrite Ec|].
      by destruct (match l with [] => d =? Py.LF | _ => ends_newline l end).
    + done.
Qed.

Lemma universal_newlines_newline (s : str) :
  Py.universal_newlines (s ++ [Py.LF]) = Py.universal_newlines s
  \/ Py.universal_newlines (s ++ [Py.LF]) = Py.universal_newlines s ++ [Py.LF].
Proof.
  assert (H : forall n s, (length s <= n)%nat ->
    Py.universal_newlines (s ++ [Py.LF]) = Py.universal_newlines s
    \/ Py.universal_newlines (s ++ [Py.LF]) = Py.universal_newlines s ++ [Py.LF]).
  { clear s. induction n as [|n IH]; intros [|c s] Hn; simpl in Hn; try lia.
    - by right.
    - by right.
    - destruct (c =? Py.CR) eqn:Ec.
      + apply N.eqb_eq in Ec. subst c. destruct s as [|d s]; [by left|].
        simpl in Hn. rewrite (universal_newlines_cr d s).
        change ((Py.CR :: d :: s) ++ [Py.LF]) with (Py.CR :: d :: (s ++ [Py.LF])).
        rewrite (universal_newlines_cr d (s ++ [Py.LF])).
        destruct (d =? Py.LF) eqn:Ed.
        * destruct (IH s) as [-> | ->]; [lia | by left | by right].
        * destruct (IH (d :: s)) as [H | H]; [simpl; lia | |];
            simpl app in H; rewrite H; [by left | by right].
      + rewrite (universal_newlines_other c s Ec).
        change ((c :: s) ++ [Py.LF]) with (c :: (s ++ [Py.LF])).
        rewrite (universal_newlines_other c (s ++ [Py.LF]) Ec).
        destruct (IH s) as [-> | ->]; [lia | by left | by right]. }
  by apply (H (length s)).
Qed.

Lemma nitpick_line_rule_append (line : str) (p : str * str) (g : globals) :
  rule_line line p -> comment line = false ->
  nitpick_line line g = nitpick_ignore_append p g.
Proof.
  intros Hrule Hc. unfold nitpick_line.
  rewrite strip_empty_whitespace, startswith_hash, Hc.
  rewrite (rule_line_not_blank _ _ Hrule). cbn [orb].
  destruct (rule_line_split _ _ Hrule) as (rest & -> & Hrest).
  unfold bind, lift, unpack2. cbn. rewrite Hrest. by destruct p.
Qed.

Lemma rule_line_newline (line : str) (p : str * str) :
  rule_line line p -> rule_line (line ++ [Py.LF]) p.
Proof.
  intros [lead dtype sep target trail Hlead Hd Hfree Hs Hsep Hb He Ht].
  replace ((lead ++ dtype ++ sep ++ target ++ trail) ++ [Py.LF])
    with (lead ++ dtype ++ sep ++ target ++ (trail ++ [Py.LF]))
    by by rewrite <- !app_assoc.
  constructor; try done. unfold whitespace in *. by rewrite forallb_app, Ht.
Qed.

Lemma lone_token_newline (line : str) :
  lone_token line -> lone_token (line ++ [Py.LF]).
Proof.
  intros [lead tok trail Hlead Htok Hfree Ht].
  replace ((lead ++ tok ++ trail) ++ [Py.LF])
    with (lead ++ tok ++ (trail ++ [Py.LF])) by by rewrite <- !app_assoc.
  constructor; try done. unfold whitespace in *. by rewrite forallb_app, Ht.
Qed.

(** A newline at the end of a line changes nothing for the loop body. *)
Lemma nitpick_line_newline (line : str) (g : globals) :
  nitpick_line (line ++ [Py.LF]) g = nitpick_line line g.
Proof.
  destruct (whitespace line) eqn:Hw.
  { rewrite !nitpick_line_skipped; [done | by left | left].
    unfold whitespace in *. by rewrite forallb_app, Hw. }
  destruct line as [|c line]; [done|].
  destruct (comment (c :: line)) eqn:Hc.
  { rewrite !nitpick_line_skipped; [done | by right | by right]. }
  assert (Hc' : comment ((c :: line) ++ [Py.LF]) = false) by done.
  destruct (line_shape (c :: line)) as [Hw' | [[p Hp] | Hl]]; [congruence | |].
  - rewrite (nitpick_line_rule_append _ p g (rule_line_newline _ _ Hp) Hc').
    by rewrite (nitpick_line_rule_append _ p g Hp Hc).
  - rewrite (nitpick_line_lone _ g (lone_token_newline _ Hl) Hc').
    by rewrite (nitpick_line_lone _ g Hl Hc).
Qed.

Lemma for_close_last (lines : list str) (g : globals) :
  for_ (close_last lines) nitpick_line g = for_ lines nitpick_line g.
Proof.
  assert (Hnl : forall g', for_ [[Py.LF]] nitpick_line g' = (g', Ok tt)).
  { intros g'. by rewrite for_cons, nitpick_line_skipped by by left. }
  revert g. induction lines as [|l lines IH]; intros g; [apply Hnl|].
  destruct lines as [|l2 lines].
  - cbn [close_last]. destruct (ends_newline l).
    + rewrite !for_cons. destruct (nitpick_line l g) as [g' [[]|e]]; [|done].
      apply Hnl.
    + by rewrite !for_cons, nitpick_line_newline.
  - change (close_last (l :: l2 :: lines)) with (l :: close_last (l2 :: lines)).
    rewrite !for_cons. destruct (nitpick_line l g) as [g' [[]|e]]; [apply IH | done].
Qed.

(** A newline added at the end of the file changes nothing: the list and
    the outcome are the same whether or not the last line is terminated,
    and an empty line more at the end is harmless. *)
Theorem nitpick_ignore_final_newline
    (w w' : world) (g : globals) (text : str) :
  ignore_list w text ->
  ignore_list w' (text ++ [Py.LF]) ->
  nitpick_block w g = nitpick_block w' g.
Proof.
  intros Hw Hw'.
  rewrite (nitpick_block_file _ _ _ Hw), (nitpick_block_file _ _ _ Hw').
  unfold file_lines.
  destruct (universal_newlines_newline text) as [-> | ->]; [done|].
  by rewrite iter_lines_newline, for_close_last.
Qed.

Lemma nitpick_ignore_final_newline_witness :
  let text := line_of "py:class a.B" ++ py "py:obj c" in
  nitpick_block (world_with text) unbound
  = nitpick_block (world_with (text ++ [Py.LF])) unbound.
Proof.
  intros text.
  apply (nitpick_ignore_final_newline
           (world_with text) (world_with (text ++ [Py.LF])) unbound text).
  - reflexivity.
  - reflexivity.
Defined.

(** ** The intersphinx mapping when it is built *)

(** The error is that of the first library, in the order of the imports,
    whose [__version__] cannot be imported: the libraries after it are not
    looked at.  A missing module gives [ModuleNotFoundError], a module
    without the attribute [ImportError]. *)
Theorem get_intersphinx_mapping_first_failure
    (w : world) (g : globals) (before after : list str) (name : str) (e : exn) :
  versioned_libraries = before ++ name :: after ->
  Forall (fun b => exists v, from_import_version w b = Ok v) before ->
  from_import_version w name = Raise e ->
  _get_intersphinx_mapping w g = (g, Raise e).
Proof.
  intros Heq Hbefore Hname.
  unfold _get_intersphinx_mapping, bind, lift, versioned_libraries in *.
  do 6 (destruct before as [|b before]; cbn [app] in Heq;
        [ injection Heq as <- _; by rewrite Hname
        | injection Heq as <- Heq;
          inversion Hbefore as [|? ? [? Hv] Hbefore']; subst;
          rewrite Hv; cbn beta iota;
          clear Hbefore Hv; rename Hbefore' into Hbefore ]).
  by destruct before.
Qed.

Lemma get_intersphinx_mapping_first_failure_witness :
  let installed := {| version := Some (py "3.8.2") |} in
  let w := {| modules := {[ py "asdf" := installed;
                            py "matplotlib" := {| version := None |} ]};
              cwd := ∅ |} in
  _get_intersphinx_mapping w unbound
  = (unbound, Raise (ImportError (py "matplotlib") (py "__version__"))).
Proof.
  intros installed w.
  apply (get_intersphinx_mapping_first_failure w unbound
           [py "asdf"] [py "numpy"; py "pandas"; py "pint"; py "scipy"]
           (py "matplotlib")).
  - reflexivity.
  - apply List.Forall_cons; [|apply List.Forall_nil].
    exists (py "3.8.2"). reflexivity.
  - reflexivity.
Defined.

Lemma from_import_version_ok (w : world) (name : str) (v : str) :
  from_import_version w name = Ok v
  <-> exists m, modules w !! name = Some m /\ version m = Some v.
Proof.
  unfold from_import_version, import.
  destruct (modules w !! name) as [m|]; [|split; [done | by intros (? & ? & ?)]].
  destruct (version m) as [v'|] eqn:Hv; split.
  - intros [= ->]. by exists m.
  - intros (m' & [= <-] & Hv'). congruence.
  - done.
  - intros (m' & [= <-] & Hv'). congruence.
Qed.

(** The mapping is built exactly when each of the six libraries can be
    imported and has a [__version__]. *)
Theorem get_intersphinx_mapping_succeeds_iff (w : world) (g : globals) :
  (exists m, _get_intersphinx_mapping w g = (g, Ok m))
  <-> Forall (fun n => exists md v, modules w !! n = Some md /\ version md = Some v)
             versioned_libraries.
Proof.
  split.
  - intros [m Hm]. unfold _get_intersphinx_mapping, bind, lift in Hm.
    unfold versioned_libraries.
    repeat match type of Hm with
      | context [from_import_version w ?n] =>
          let H := fresh "Hv" in
          destruct (from_import_version w n) as [?|?] eqn:H;
          [apply from_import_version_ok in H as (? & ? & ?) | done]
      end.
    repeat (apply List.Forall_cons; [eauto|]). apply List.Forall_nil.
  - intros Hall. unfold versioned_libraries in Hall.
    unfold _get_intersphinx_mapping, bind, lift.
    repeat match goal with
      | H : Forall _ (?n :: _) |- _ =>
          let md := fresh "md" in
          let v := fresh "v" in
          let Hmd := fresh "Hmd" in
          let Hver := fresh "Hver" in
          apply Forall_cons in H as [(md & v & Hmd & Hver) H];
          rewrite (proj2 (from_import_version_ok w n v)
                     (ex_intro _ md (conj Hmd Hver)));
          cbn beta iota
      end.
    by eexists.
Qed.

(** The mapping that is built: the call leaves the globals alone, the
    twelve projects come in the order of the literal, no name twice (so no
    entry of the dict replaces another), and every inventory is [None]. *)
Theorem get_intersphinx_mapping_shape
    (w : world) (g g' : globals) (m : mapping) :
  _get_intersphinx_mapping w g = (g', Ok m) ->
  g' = g
  /\ map fst m
     = [py "python"; py "numpy"; py "pandas"; py "xarray"; py "scipy";
        py "matplotlib"; py "pint"; py "jsonschema"; py "asdf"; py "networkx";
        py "IPython"; py "k3d"]
  /\ NoDup (map fst m)
  /\ Forall (fun entry => entry.2.2 = None) m.
Proof.
  intros Hm. unfold _get_intersphinx_mapping, bind, lift in Hm.
  repeat match type of Hm with
    | context [from_import_version w ?n] =>
        destruct (from_import_version w n) as [?|?]; [|done]
    end.
  injection Hm as <- <-.
  split_and!; [done | done | | repeat constructor].
  cbn [map fst]. apply (bool_decide_unpack _). by vm_compute.
Qed.

Lemma get_intersphinx_mapping_shape_witness :
  let installed := {| version := Some (py "1.26.4") |} in
  let w := {| modules := {[ py "asdf" := installed; py "matplotlib" := installed;
                            py "numpy" := installed; py "pandas" := installed;
                            py "pint" := installed; py "scipy" := installed ]};
              cwd := ∅ |} in
  exists m : mapping,
    unbound = unbound
    /\ map fst m
       = [py "python"; py "numpy"; py "pandas"; py "xarray"; py "scipy";
          py "matplotlib"; py "pint"; py "jsonschema"; py "asdf"; py "networkx";
          py "IPython"; py "k3d"]
    /\ NoDup (map fst m)
    /\ Forall (fun entry => entry.2.2 = None) m.
Proof.
  intros installed w.
  exists (match (_get_intersphinx_mapping w unbound).2 with
          | Ok m => m
          | Raise _ => []
          end).
  apply (get_intersphinx_mapping_shape w unbound unbound).
  vm_compute. reflexivity.
Defined.

(** Of the numpy version only the first four characters count: two
    environments that differ in the numpy version alone, and agree on its
    first four characters, give the same mapping. *)
Theorem get_intersphinx_mapping_numpy_prefix
    (w w' : world) (g : globals) (v v' : str) :
  modules w !! py "numpy" = Some {| version := Some v |} ->
  modules w' = <[py "numpy" := {| version := Some v' |}]> (modules w) ->
  take 4 v = take 4 v' ->
  _get_intersphinx_mapping w' g = _get_intersphinx_mapping w g.
Proof.
  intros Hv Hw' Hprefix.
  assert (Hother : forall n, n <> py "numpy" ->
            from_import_version w' n = from_import_version w n).
  { intros n Hn. unfold from_import_version, import.
    rewrite Hw', lookup_insert_ne; [done | congruence]. }
  assert (Hnumpy : from_import_version w (py "numpy") = Ok v).
  { apply from_import_version_ok. by eexists. }
  assert (Hnumpy' : from_import_version w' (py "numpy") = Ok v').
  { apply from_import_version_ok. exists {| version := Some v' |}.
    split; [|done]. by rewrite Hw', lookup_insert_eq. }
  unfold _get_intersphinx_mapping, bind, lift.
  rewrite Hnumpy, Hnumpy', !Hother by (intros H; by vm_compute in H).
  unfold Py.slice_to. by rewrite Hprefix.
Qed.

Lemma get_intersphinx_mapping_numpy_prefix_witness :
  let installed := {| version := Some (py "1.26.4") |} in
  let w := {| modules := {[ py "asdf" := installed; py "matplotlib" := installed;
                            py "numpy" := installed; py "pandas" := installed;
                            py "pint" := installed; py "scipy" := installed ]};
              cwd := ∅ |} in
  let w' := {| modules := <[py "numpy" := {| version := Some (py "1.26.0rc1") |}]>
                            (modules w);
               cwd := ∅ |} in
  _get_intersphinx_mapping w' unbound = _get_intersphinx_mapping w unbound.
Proof.
  intros installed w w'.
  apply (get_intersphinx_mapping_numpy_prefix w w' unbound
           (py "1.26.4") (py "1.26.0rc1")).
  - reflexivity.
  - reflexivity.
  - reflexivity.
Defined.

Lemma get_intersphinx_mapping_pure (w : world) (g : globals) :
  (_get_intersphinx_mapping w g).1 = g.
Proof.
  unfold _get_intersphinx_mapping, bind, lift.
  repeat match goal with
    | |- context [from_import_version w ?n] =>
        destruct (from_import_version w n) as [?|?]; [cbn beta iota | done]
    end.
  done.
Qed.

(** ** The two blocks one after the other *)

(** From globals with nothing bound, lines 298 to 313 bind the mapping
    before the ignore list: [nitpick_ignore] is never bound without
    [intersphinx_mapping], a normal end leaves both bound, and an import
    error leaves both unbound. *)
Theorem conf_tail_binds_in_order (w : world) :
  (is_Some (nitpick_ignore (conf_tail w unbound).1) ->
   is_Some (intersphinx_mapping (conf_tail w unbound).1))
  /\ ((conf_tail w unbound).2 = Ok tt ->
      is_Some (intersphinx_mapping (conf_tail w unbound).1)
      /\ is_Some (nitpick_ignore (conf_tail w unbound).1))
  /\ (forall e, (conf_tail w unbound).2 = Raise e -> is_import_error e = true ->
        (conf_tail w unbound).1 = unbound).
Proof.
  assert (Hrun : conf_tail w unbound
            = match _get_intersphinx_mapping w unbound with
              | (g1, Ok m) =>
                  nitpick_block w {| intersphinx_mapping := Some m;
                                     nitpick_ignore := nitpick_ignore g1 |}
              | (g1, Raise e) => (g1, Raise e)
              end).
  { unfold conf_tail, intersphinx_block, bind, assign_intersphinx_mapping.
    by destruct (_get_intersphinx_mapping w unbound) as [g1 [m|e]]. }
  rewrite Hrun. clear Hrun.
  pose proof (get_intersphinx_mapping_pure w unbound) as Hpure.
  destruct (_get_intersphinx_mapping w unbound) as [g1 [m|e]]; simpl in Hpure;
    subst g1.
  - set (g1 := {| intersphinx_mapping := Some m;
                  nitpick_ignore := nitpick_ignore unbound |}).
    destruct (nitpick_block_result w g1) as (pairs & r & -> & Hr).
    simpl. split_and!; [eauto | eauto |].
    intros e -> He.
    destruct Hr as [? | [? | ?]]; simplify_eq; done.
  - simpl. split_and!; [by intros [? ?] | done | done].
Qed.

(** ** The imports at the top of the file *)









(** ** What is staged *)

Lemma extensions_disjoint (name : str) :
  Py.endswith name (py ".ipynb") = true -> Py.endswith name (py ".py") = true ->
  False.
Proof.
  unfold Py.endswith. change (rev (py ".ipynb")) with (py "bnypi.").
  change (rev (py ".py")) with (py "yp.").
  destruct (rev name) as [|c r]; [done|].
  change (py "bnypi.") with (98 :: py "nypi.").
  change (py "yp.") with (121 :: py "p."). cbn [Py.startswith].
  intros [Hb%N.eqb_eq _]%andb_true_iff [Hy%N.eqb_eq _]%andb_true_iff.
  congruence.
Qed.

(** The files the first loop collects: the entries of the source directory
    whose names end with [.ipynb] or [.py] (case-sensitive, a name that is
    the extension alone included), each of them once; so the second loop
    copies every such file exactly once. *)
Theorem tutorial_files_exact {data : Type} (tutorials : directory data) :
  _copy_tut_files tutorials
  = for_ (tutorial_files tutorials) (fun f => shutil_copy tutorials f)
  /\ NoDup (tutorial_files tutorials)
  /\ forall name,
       name ∈ tutorial_files tutorials
       <-> is_Some (tutorials !! name)
           /\ (Py.endswith name (py ".ipynb") = true
               \/ Py.endswith name (py ".py") = true).
Proof.
  assert (Hglob : forall pattern, NoDup (glob tutorials pattern)).
  { intros pattern. unfold glob.
    apply NoDup_ListNoDup, List.NoDup_filter, NoDup_ListNoDup.
    exact (NoDup_fst_map_to_list tutorials). }
  assert (Hstar : forall name lits,
            translate (py "*" ++ lits) = AnyRun :: map Literal lits ->
            name ∈ glob tutorials (py "*" ++ lits)
            <-> is_Some (tutorials !! name) /\ Py.endswith name lits = true).
  { intros name lits Htr. by rewrite glob_elem, fnmatch_star. }
  split_and!; [done | |].
  - unfold tutorial_files, _exts. cbn [fold_left app].
    apply NoDup_app. split_and!; [apply Hglob | | apply Hglob].
    change (py "*.ipynb") with (py "*" ++ py ".ipynb").
    change (py "*.py") with (py "*" ++ py ".py").
    intros name [_ H1]%Hstar [_ H2]%Hstar; [|done..].
    by eapply extensions_disjoint.
  - intros name. unfold tutorial_files, _exts. cbn [fold_left app].
    change (py "*.ipynb") with (py "*" ++ py ".ipynb").
    change (py "*.py") with (py "*" ++ py ".py").
    rewrite elem_of_app, !Hstar by done. tauto.
Qed.

(** Staging never removes anything from the destination: when the entries
    to stage are regular files, the names there afterwards are those it
    had before together with the source names ending in [.ipynb] or
    [.py]. *)
Theorem copy_tut_files_names
    {data : Type} (tutorials tutorials_dir : gmap str (Entries.node data)) :
  regular_files tutorials tutorials_dir ->
  (Entries._copy_tut_files tutorials tutorials_dir).2 = Ok tt
  /\ dom (Entries._copy_tut_files tutorials tutorials_dir).1
     = dom tutorials_dir
       ∪ filter (fun name => has_extension name = true) (dom tutorials).
Proof.
  intros Hreg.
  destruct (entries_copy_tut_files_result tutorials tutorials_dir Hreg)
    as (dst' & -> & Hdst').
  split; [done|]. cbn [fst]. apply set_eq. intros name.
  rewrite elem_of_union, elem_of_filter, !elem_of_dom, Hdst'.
  destruct (has_extension name) eqn:Hname; cbn [andb].
  - destruct (bool_decide (is_Some (tutorials !! name))) eqn:Hd.
    + apply bool_decide_eq_true_1 in Hd. tauto.
    + apply bool_decide_eq_false_1 in Hd. tauto.
  - split; [tauto | by intros [? | [? ?]]].
Qed.

Lemma copy_tut_files_names_witness :
  let tutorials : gmap str (Entries.node nat) :=
    {[ py "a.ipynb" := Entries.File 1%nat; py "b.py" := Entries.File 2%nat;
       py "c.txt" := Entries.File 3%nat ]} in
  let tutorials_dir : gmap str (Entries.node nat) :=
    {[ py "b.py" := Entries.File 0%nat; py "index.rst" := Entries.File 9%nat ]} in
  (Entries._copy_tut_files tutorials tutorials_dir).2 = Ok tt
  /\ dom (Entries._copy_tut_files tutorials tutorials_dir).1
     = dom tutorials_dir
       ∪ filter (fun name => has_extension name = true) (dom tutorials).
Proof.
  intros tutorials tutorials_dir.
  apply (copy_tut_files_names tutorials tutorials_dir).
  intros name _ _. split; apply only_files_lookup; reflexivity.
Defined.

(** In that witness the names afterwards are [a.ipynb], [b.py] and
    [index.rst]. *)
Example copy_tut_files_names_abc :
  let tutorials : gmap str (Entries.node nat) :=
    {[ py "a.ipynb" := Entries.File 1%nat; py "b.py" := Entries.File 2%nat;
       py "c.txt" := Entries.File 3%nat ]} in
  let tutorials_dir : gmap str (Entries.node nat) :=
    {[ py "b.py" := Entries.File 0%nat; py "index.rst" := Entries.File 9%nat ]} in
  dom (Entries._copy_tut_files tutorials tutorials_dir).1
  = {[ py "a.ipynb"; py "b.py"; py "index.rst" ]}.
Proof. vm_compute. reflexivity. Qed.

(** With no [*.ipynb] or [*.py] file in the source directory, an empty
    directory for one, staging ends normally and leaves the destination as
    it is. *)
Theorem copy_tut_files_nothing_to_stage
    {data : Type} (tutorials tutorials_dir : directory data) :
  (forall name, is_Some (tutorials !! name) -> tutorial_name name = false) ->
  _copy_tut_files tutorials tutorials_dir = (tutorials_dir, Ok tt).
Proof.
  intros Hnone.
  destruct (copy_tut_files_result tutorials tutorials_dir)
    as (dst' & -> & Hdst').
  f_equal. apply map_eq. intros name. rewrite Hdst'.
  destruct (tutorial_name name) eqn:Hname; [|done].
  rewrite bool_decide_eq_false_2; [done|].
  intros Hsome. apply Hnone in Hsome. congruence.
Qed.

Lemma copy_tut_files_nothing_to_stage_witness :
  let tutorials : directory nat := {[ py "README.md" := 1%nat; py "a.PY" := 2%nat ]} in
  let tutorials_dir : directory nat := {[ py "index.rst" := 9%nat ]} in
  _copy_tut_files tutorials tutorials_dir = (tutorials_dir, Ok tt).
Proof.
  intros tutorials tutorials_dir.
  apply (copy_tut_files_nothing_to_stage tutorials tutorials_dir).
  intros name [x Hx]. unfold tutorials in Hx.
  apply lookup_insert_Some in Hx as [[<- _] | [_ Hx]]; [reflexivity|].
  apply lookup_singleton_Some in Hx as [<- _]. reflexivity.
Defined.

(** ** The primitives the loop relies on *)

(** [split(None, maxsplit)] gives at most [maxsplit + 1] fields, each
    starting with a character that is not whitespace.  For the loop this
    means that [line.split(None, 1)] has never more than two fields: the
    unpacking can only fail for want of a second one. *)
Theorem split_whitespace_fields_bound (maxsplit : nat) (s : str) :
  (length (Py.split_whitespace maxsplit s) <= S maxsplit)%nat
  /\ Forall (fun field => begins_text field = true)
            (Py.split_whitespace maxsplit s)
  /\ (maxsplit = 1%nat ->
      unpack2 (Py.split_whitespace maxsplit s) = Raise ValueError ->
      (length (Py.split_whitespace maxsplit s) < 2)%nat).
Proof.
  assert (Hb : forall n s,
            (length (Py.split_whitespace n s) <= S n)%nat
            /\ Forall (fun field => begins_text field = true)
                      (Py.split_whitespace n s)).
  { clear. induction n as [|n IH]; intros s; cbn [Py.split_whitespace];
      unfold Py.lstrip;
      pose proof (dropwhile_stops Py.isspace s) as Hs;
      destruct (Py.dropwhile Py.isspace s) as [|c r] eqn:E.
    - split; [simpl; lia | constructor].
    - split; [simpl; lia|].
      apply List.Forall_cons; [|constructor]. by apply nonspace_isspace.
    - split; [simpl; lia | constructor].
    - destruct (IH (Py.dropwhile Py.nonspace (c :: r))) as [Hlen Hall].
      split; [cbn [length]; lia|]. apply List.Forall_cons; [|done].
      simpl. apply nonspace_isspace in Hs. by rewrite Hs. }
  destruct (Hb maxsplit s) as [Hlen Hall]. split_and!; [done | done |].
  intros -> Hraise.
  destruct (Py.split_whitespace 1 s) as [|a [|b [|c l]]]; simpl in *;
    [lia | lia | done | lia].
Qed.

(** Iterating over the text of a file cuts it after every newline and
    nowhere else: the lines put together are the text again, every line
    but the last is a body without newline followed by one newline, and
    the last line is either such a line too or a non-empty rest without
    newline. *)
Theorem iter_lines_partition (s : str) :
  concat (Py.iter_lines s) = s
  /\ exists full tail,
       Py.iter_lines s = full ++ tail
       /\ Forall (fun l => exists body,
                    l = body ++ [Py.LF] /\ Forall (fun c => c <> Py.LF) body) full
       /\ (tail = []
           \/ exists l, tail = [l] /\ l <> [] /\ Forall (fun c => c <> Py.LF) l).
Proof.
  split; [apply iter_lines_concat|].
  induction s as [|c s (full & tail & Hs & Hfull & Htail)].
  - exists [], []. split_and!; [done | constructor | by left].
  - cbn [Py.iter_lines]. destruct (c =? Py.LF) eqn:Ec.
    + apply N.eqb_eq in Ec. subst c. exists ([Py.LF] :: full), tail.
      split_and!; [by rewrite Hs | | done].
      constructor; [|done]. exists []. split; [done | constructor].
    + apply N.eqb_neq in Ec. rewrite Hs.
      destruct full as [|l full].
      * destruct Htail as [-> | (l & -> & Hl & Hbody)].
        -- exists [], [[c]]. split_and!; [done | constructor |].
           right. exists [c]. split_and!; [done | done | by constructor].
        -- exists [], [c :: l]. split_and!; [done | constructor |].
           right. exists (c :: l). split_and!; [done | done | by constructor].
      * exists ((c :: l) :: full), tail. split_and!; [done | | done].
        inversion Hfull as [|? ? (body & -> & Hbody) Hrest]; subst.
        constructor; [|done]. exists (c :: body). split; [done | by constructor].
Qed.

(** Lines 54 and 55 with every module in place, and with pandas missing. *)
Example preamble_with_and_without_pandas :
  let installed := {| version := Some (py "1.0") |} in
  let all : gmap str pymodule :=
    list_to_map (map (fun n => (n, installed)) preamble_modules) in
  preamble {| modules := all; cwd := ∅ |} unbound = (unbound, Ok tt)
  /\ preamble {| modules := delete (py "pandas") all; cwd := ∅ |} unbound
     = (unbound, Raise (ModuleNotFoundError (py "pandas"))).
Proof. split; vm_compute; reflexivity. Qed.
